(** * The hits-per-page connector

    A shallow embedding of [src/connectors/hits-per-page/connectHitsPerPage.ts]:
    the configuration check done when a widget is built, the item normaliser,
    the refine callback and the URL factory, and the five lifecycle hooks
    ([init], [render], [dispose], [getWidgetState],
    [getWidgetSearchParameters]).

    The closure variables of the widget ([items], [setHitsPerPage],
    [createURLFactory]) are the fields of the record [Widget.Closure] that the
    hooks thread through a small state monad; calls to the collaborators that the
    connector only talks to (the rendering callback, the unmount callback and
    the [warning] utility) are recorded in a trace. *)

From Stdlib Require Import ZArith Ascii String List Bool Eqdep_dec.
From Stdlib Require SpecFloat.
From stdpp Require Import gmap strings list fin_maps.

Local Open Scope Z_scope.

(** ** JavaScript values *)

Module JS.

(** Numbers are the values of IEEE 754 binary64: precision 53, exponents
    below 1024. *)
Definition prec : Z := 53.
Definition emax : Z := 1024.

(** The representations kept: [NaN], the two infinities, one zero, and the
    finite values in canonical form.  The two zeros of binary64 are one
    value here; [===] and truthiness, the only operations the connector
    applies, do not tell them apart. *)
Definition is_double (f : SpecFloat.spec_float) : bool :=
  match f with
  | SpecFloat.S754_zero s => negb s
  | SpecFloat.S754_infinity _ => true
  | SpecFloat.S754_nan => true
  | SpecFloat.S754_finite _ m e => SpecFloat.bounded prec emax m e
  end.

Record number : Type := {
  float : SpecFloat.spec_float;
  float_is_double : is_double float = true
}.

Definition NaN : number :=
  {| float := SpecFloat.S754_nan; float_is_double := eq_refl |}.

Definition one_zero (f : SpecFloat.spec_float) : SpecFloat.spec_float :=
  match f with
  | SpecFloat.S754_zero _ => SpecFloat.S754_zero false
  | _ => f
  end.

Definition of_float (f : SpecFloat.spec_float) : number :=
  match is_double (one_zero f) as b
        return is_double (one_zero f) = b -> number with
  | true => fun H => {| float := one_zero f; float_is_double := H |}
  | false => fun _ => NaN
  end eq_refl.

(** The number nearest to the integer [z], ties to even: the value of the
    numeric literal [z]. *)
Definition Int (z : Z) : number :=
  of_float (SpecFloat.binary_normalize prec emax z 0 false).

Definition Infinity (negative : bool) : number :=
  of_float (SpecFloat.S754_infinity negative).

(** The number nearest to [m * 10 ^ e10], negated when [negative]; [m] is not
    negative and has at most [digits] decimal digits.  A value of at least
    [10 ^ 309] is beyond the largest number and rounds to an infinity, a
    value below [10 ^ -324] is less than half the least positive number and
    rounds to zero; in between the value is rounded exactly, as an integer
    when [e10] is not negative and as a quotient of integers otherwise. *)
Definition decimal (negative : bool) (m digits e10 : Z) : number :=
  if Z.eqb m 0 then Int 0
  else if Z.leb 309 e10 then Infinity negative
  else if Z.leb (e10 + digits) (-324) then Int 0
  else if Z.leb 0 e10 then
    Int (SpecFloat.cond_Zopp negative (m * 10 ^ e10))
  else
    of_float
      (SpecFloat.SFdiv prec emax
         (SpecFloat.S754_finite negative (Z.to_pos m) 0)
         (SpecFloat.S754_finite false (Z.to_pos (10 ^ (- e10))) 0)).

(** The primitive values that a page size, an item value or a flag can hold.
    A string is the sequence of the bytes of its UTF-8 encoding. *)
Inductive value : Type :=
| Undefined
| Null
| Bool (b : bool)
| Num (n : number)
| Str (s : string).

Definition zero : value := Num (Int 0).

(** [a === b] on numbers: [NaN] differs from everything, itself included. *)
Definition number_eq (a b : number) : bool :=
  SpecFloat.SFeqb (float a) (float b).

(** [a === b]. *)
Definition strict_eq (a b : value) : bool :=
  match a, b with
  | Undefined, Undefined => true
  | Null, Null => true
  | Bool x, Bool y => Bool.eqb x y
  | Num x, Num y => number_eq x y
  | Str x, Str y => String.eqb x y
  | _, _ => false
  end.

(** [a !== b]. *)
Definition strict_ne (a b : value) : bool := negb (strict_eq a b).

(** Truthiness, as used by [!v] and [a || b]. *)
Definition truthy (v : value) : bool :=
  match v with
  | Undefined | Null => false
  | Bool b => b
  | Num n =>
      match float n with
      | SpecFloat.S754_nan | SpecFloat.S754_zero _ => false
      | _ => true
      end
  | Str s => negb (String.eqb s EmptyString)
  end.

(** [a || b]. *)
Definition or_else (a b : value) : value := if truthy a then a else b.

(** *** [Number] on strings *)

Definition bytes (s : string) : list nat :=
  map nat_of_ascii (list_ascii_of_string s).

(** White space and line terminators, by the bytes of their encoding: the
    tab, line feed, vertical tab, form feed, carriage return and space; the
    no-break space U+00A0; U+1680, U+2000 to U+200A, U+2028, U+2029, U+202F,
    U+205F, U+3000; and the byte order mark U+FEFF. *)
Definition space1 (a : nat) : bool :=
  (Nat.eqb a 9 || Nat.eqb a 10 || Nat.eqb a 11 || Nat.eqb a 12
   || Nat.eqb a 13 || Nat.eqb a 32)%bool.

Definition space2 (a b : nat) : bool :=
  (Nat.eqb a 194 && Nat.eqb b 160)%bool.

Definition space3 (a b c : nat) : bool :=
  (Nat.eqb a 225 && Nat.eqb b 154 && Nat.eqb c 128
   || Nat.eqb a 226 && Nat.eqb b 128
      && (Nat.leb 128 c && Nat.leb c 138 || Nat.eqb c 168 || Nat.eqb c 169
          || Nat.eqb c 175)
   || Nat.eqb a 226 && Nat.eqb b 129 && Nat.eqb c 159
   || Nat.eqb a 227 && Nat.eqb b 128 && Nat.eqb c 128
   || Nat.eqb a 239 && Nat.eqb b 187 && Nat.eqb c 191)%bool.

(** Drops the white space at the head of the bytes; with [backwards], the
    bytes are those of a reversed string, and so is each encoding. *)
Fixpoint drop_space (backwards : bool) (l : list nat) : list nat :=
  match l with
  | a :: r1 =>
      if space1 a then drop_space backwards r1
      else
        match r1 with
        | b :: r2 =>
            if (if backwards then space2 b a else space2 a b)
            then drop_space backwards r2
            else
              match r2 with
              | c :: r3 =>
                  if (if backwards then space3 c b a else space3 a b c)
                  then drop_space backwards r3
                  else l
              | [] => l
              end
        | [] => l
        end
  | [] => []
  end.

Definition trim (l : list nat) : list nat :=
  rev (drop_space true (rev (drop_space false l))).

(** The value of a digit in the given radix: [0] to [9], [a] to [f] and [A]
    to [F]. *)
Definition digit_value (radix : Z) (c : nat) : option Z :=
  let d :=
    if (Nat.leb 48 c && Nat.leb c 57)%bool then Some (Z.of_nat (c - 48))
    else if (Nat.leb 97 c && Nat.leb c 102)%bool then Some (Z.of_nat (c - 87))
    else if (Nat.leb 65 c && Nat.leb c 70)%bool then Some (Z.of_nat (c - 55))
    else None in
  match d with
  | Some d => if Z.ltb d radix then Some d else None
  | None => None
  end.

(** Reads the longest run of digits at the head of the bytes: the value it
    adds to [acc], the number of digits added to [count], and the rest. *)
Fixpoint digits (radix : Z) (l : list nat) (acc count : Z)
    : Z * Z * list nat :=
  match l with
  | c :: r =>
      match digit_value radix c with
      | Some d => digits radix r (radix * acc + d) (count + 1)
      | None => (acc, count, l)
      end
  | [] => (acc, count, [])
  end.

Definition is_nil (l : list nat) : bool :=
  match l with
  | [] => true
  | _ => false
  end.

(** [0x], [0o] and [0b] literals: digits of the radix and nothing else. *)
Definition non_decimal (radix : Z) (l : list nat) : number :=
  let '(n, count, rest) := digits radix l 0 0 in
  if (Z.ltb 0 count && is_nil rest)%bool then Int n else NaN.

Fixpoint same_bytes (a b : list nat) : bool :=
  match a, b with
  | [], [] => true
  | x :: a', y :: b' => (Nat.eqb x y && same_bytes a' b')%bool
  | _, _ => false
  end.

(** An unsigned decimal literal: [Infinity], or digits with an optional
    fraction and an optional exponent, with a digit before or after the
    point. *)
Definition unsigned_decimal (negative : bool) (l : list nat) : number :=
  if same_bytes l (bytes "Infinity") then Infinity negative
  else
    let '(i, ni, r1) := digits 10 l 0 0 in
    let '(m, nf, r2) :=
      match r1 with
      | 46%nat :: r => digits 10 r i 0
      | _ => (i, 0, r1)
      end in
    if Z.eqb (ni + nf) 0 then NaN
    else
      match r2 with
      | [] => decimal negative m (ni + nf) (- nf)
      | c :: r3 =>
          if (Nat.eqb c 101 || Nat.eqb c 69)%bool then
            let '(minus, r4) :=
              match r3 with
              | 43%nat :: r => (false, r)
              | 45%nat :: r => (true, r)
              | _ => (false, r3)
              end in
            let '(e, ne, r5) := digits 10 r4 0 0 in
            if (Z.ltb 0 ne && is_nil r5)%bool
            then decimal negative m (ni + nf)
                   ((if minus then - e else e) - nf)
            else NaN
          else NaN
      end.

(** [Number(s)] on a string: white space is trimmed from both ends; the
    empty string is [0]; a literal with a radix prefix takes no sign; any
    other literal is decimal, with an optional sign; everything else is
    [NaN]. *)
Definition string_to_number (s : string) : number :=
  match trim (bytes s) with
  | [] => Int 0
  | 48%nat :: x :: r =>
      if (Nat.eqb x 120 || Nat.eqb x 88)%bool then non_decimal 16 r
      else if (Nat.eqb x 111 || Nat.eqb x 79)%bool then non_decimal 8 r
      else if (Nat.eqb x 98 || Nat.eqb x 66)%bool then non_decimal 2 r
      else unsigned_decimal false (48%nat :: x :: r)
  | 43%nat :: r => unsigned_decimal false r
  | 45%nat :: r => unsigned_decimal true r
  | l => unsigned_decimal false l
  end.

(** [Number(v)]. *)
Definition Number (v : value) : number :=
  match v with
  | Undefined => NaN
  | Null => Int 0
  | Bool true => Int 1
  | Bool false => Int 0
  | Num n => n
  | Str s => string_to_number s
  end.

End JS.

(** ** Collaborators of the connector *)

(** Modelled from the spec: the search-state object of the helper library is
    not part of the sources; the spec describes it as a set of query
    parameters with a "set query parameter" operation and a readable page
    size.  A parameter that is set to [undefined] is absent. *)
Module SearchParameters.

Definition get (k : string) (sp : gmap string JS.value) : JS.value :=
  match sp !! k with
  | Some v => v
  | None => JS.Undefined
  end.

Definition hitsPerPage (sp : gmap string JS.value) : JS.value :=
  get "hitsPerPage" sp.

Definition setQueryParameter (k : string) (v : JS.value)
    (sp : gmap string JS.value) : gmap string JS.value :=
  match v with
  | JS.Undefined => delete k sp
  | _ => <[k := v]> sp
  end.

Definition setQueryParameters (params : list (string * JS.value))
    (sp : gmap string JS.value) : gmap string JS.value :=
  fold_left (fun acc kv => setQueryParameter (fst kv) (snd kv) acc) params sp.

End SearchParameters.

(** Modelled from the spec: the helper is not part of the sources; the spec
    describes it as the owner of the search state, with a chainable "set
    query parameter" operation and a "trigger search" operation.  The model
    keeps the state and the log of the searches issued, each with the state
    it was issued for. *)
Module Helper.

Record AlgoliaSearchHelper : Type := {
  state : gmap string JS.value;
  searches : list (gmap string JS.value)
}.

Definition setQueryParameter (k : string) (v : JS.value)
    (h : AlgoliaSearchHelper) : AlgoliaSearchHelper :=
  {| state := SearchParameters.setQueryParameter k v (state h);
     searches := searches h |}.

Definition search (h : AlgoliaSearchHelper) : AlgoliaSearchHelper :=
  {| state := state h; searches := searches h ++ [state h] |}.

End Helper.

(** The result set handed to [render]; only the hit count is read. *)
Record SearchResults : Type := { nbHits : JS.value }.

(** The search instance is passed through to the rendering callback. *)
Inductive InstantSearch : Type := InstantSearchRef (id : nat).

(** Exceptions: the [Error] thrown by the configuration check, and the
    [TypeError] that JavaScript raises when a hook calls a closure variable
    that [init] has not assigned yet. *)
Inductive Exn : Type :=
| Error (message : string)
| TypeError (message : string).

(** Modelled from the spec: the documentation link that lib/utils builds for
    [{ name: 'hits-per-page', connector: true }] is not part of the sources. *)
Definition documentationLink : string :=
  "https://www.algolia.com/doc/api-reference/widgets/hits-per-page/js/#connector".

Definition newline : string := String (ascii_of_nat 10) EmptyString.

(** Modelled from the spec: [createDocumentationMessageGenerator] of lib/utils
    is not part of the sources; the spec says that the configuration errors
    carry a documentation-referencing message.  The generator appends the
    reference to the documentation of the connector to the message. *)
Definition withUsage (message : string) : string :=
  message ++ newline ++ newline ++ "See documentation: " ++ documentationLink.

(** ** Data model *)

Module Item.

(** [HitsPerPageWidgetOptionsItem]: [value] is a number, absent, or the empty
    string of the placeholder item; [default] is an optional flag. *)
Record HitsPerPageWidgetOptionsItem : Type := {
  label : string;
  value : JS.value;
  default : option bool
}.

End Item.

Module RenderingItem.

(** What [normalizeItems] builds: the fields of the item and [isRefined]. *)
Record HitsPerPageRenderingOptionsItem : Type := {
  label : string;
  value : JS.value;
  default : option bool;
  isRefined : bool
}.

End RenderingItem.

(** The [items] option as the caller passed it: an array of items or anything
    else ([widgetParams] defaults to the empty object, whose [items] is
    [undefined]). *)
Inductive ItemsOption : Type :=
| NotAnArray (v : JS.value)
| ArrayOf (l : list Item.HitsPerPageWidgetOptionsItem).

Module Options.

Record HitsPerPageWidgetOptions : Type := {
  items : ItemsOption;
  transformItems :
    option (list RenderingItem.HitsPerPageRenderingOptionsItem ->
            list RenderingItem.HitsPerPageRenderingOptionsItem)
}.

End Options.

Module Rendering.

Record HitsPerPageRenderingOptions : Type := {
  items : list RenderingItem.HitsPerPageRenderingOptionsItem;
  refine : option (JS.value -> Helper.AlgoliaSearchHelper ->
                   Helper.AlgoliaSearchHelper);
  createURL : JS.value -> string;
  hasNoResults : bool;
  widgetParams : Options.HitsPerPageWidgetOptions;
  instantSearchInstance : InstantSearch
}.

End Rendering.

(** The two diagnostics of [init]; the second one quotes the page size found
    in the state. *)
Inductive WarningMessage : Type :=
| HitsPerPageNotDefined
| ValueNotInItems (hitsPerPage : JS.value).

(** Calls made to the collaborators, in order. *)
Inductive Event : Type :=
| WarningCall (condition : bool) (message : WarningMessage)
| RenderCall (renderOptions : Rendering.HitsPerPageRenderingOptions)
    (isFirstRender : bool)
| UnmountCall.

(** Modelled from the spec: the [warning] utility of lib/utils is not part of
    the sources; the spec calls its messages non-fatal diagnostics that are
    logged and names the first one "state not configured at all".  The
    utility takes a condition and a message and logs the message when the
    condition does not hold, which is how the call [warning(false, ...)] of
    [init] logs unconditionally. *)
Definition logged (e : Event) : bool :=
  match e with
  | WarningCall condition _ => negb condition
  | _ => false
  end.

Definition is_warning (e : Event) : bool :=
  match e with
  | WarningCall _ _ => true
  | _ => false
  end.

Definition is_render (e : Event) : bool :=
  match e with
  | RenderCall _ _ => true
  | _ => false
  end.

(** ** The widget closure *)

Module Widget.

(** The variables captured by the hooks of one widget instance. *)
Record Closure : Type := {
  widgetParams : Options.HitsPerPageWidgetOptions;
  transformItems :
    list RenderingItem.HitsPerPageRenderingOptionsItem ->
    list RenderingItem.HitsPerPageRenderingOptionsItem;
  items : list Item.HitsPerPageWidgetOptionsItem;
  defaultItem : Item.HitsPerPageWidgetOptionsItem;
  setHitsPerPage :
    option (JS.value -> Helper.AlgoliaSearchHelper ->
            Helper.AlgoliaSearchHelper);
  createURLFactory :
    option (gmap string JS.value -> JS.value -> string)
}.

Definition with_items (l : list Item.HitsPerPageWidgetOptionsItem)
    (w : Closure) : Closure :=
  {| widgetParams := widgetParams w; transformItems := transformItems w;
     items := l; defaultItem := defaultItem w;
     setHitsPerPage := setHitsPerPage w;
     createURLFactory := createURLFactory w |}.

Definition with_setHitsPerPage
    (f : JS.value -> Helper.AlgoliaSearchHelper -> Helper.AlgoliaSearchHelper)
    (w : Closure) : Closure :=
  {| widgetParams := widgetParams w; transformItems := transformItems w;
     items := items w; defaultItem := defaultItem w;
     setHitsPerPage := Some f;
     createURLFactory := createURLFactory w |}.

Definition with_createURLFactory
    (f : gmap string JS.value -> JS.value -> string)
    (w : Closure) : Closure :=
  {| widgetParams := widgetParams w; transformItems := transformItems w;
     items := items w; defaultItem := defaultItem w;
     setHitsPerPage := setHitsPerPage w;
     createURLFactory := Some f |}.

End Widget.

(** ** A monad for the hooks

    A hook reads and assigns the closure variables, calls collaborators and
    may throw; whether it returns or throws, it leaves a closure and the
    trace of the calls it made. *)

Definition Hook (A : Type) : Type :=
  Widget.Closure ->
  (Exn * Widget.Closure * list Event) + (A * Widget.Closure * list Event).

Definition ret {A : Type} (a : A) : Hook A :=
  fun w => inr (a, w, []).

Definition bind {A B : Type} (m : Hook A) (k : A -> Hook B) : Hook B :=
  fun w =>
    match m w with
    | inl thrown => inl thrown
    | inr (a, w1, t1) =>
        match k a w1 with
        | inl (e, w2, t2) => inl (e, w2, t1 ++ t2)
        | inr (b, w2, t2) => inr (b, w2, t1 ++ t2)
        end
    end.

Notation "'let*' x ':=' m 'in' k" := (bind m (fun x => k))
  (at level 10, x name, m at level 100, k at level 200).
Notation "m ';;' k" := (bind m (fun _ => k))
  (at level 100, k at level 200, right associativity).

Definition read {A : Type} (f : Widget.Closure -> A) : Hook A :=
  fun w => inr (f w, w, []).

Definition assign (f : Widget.Closure -> Widget.Closure) : Hook unit :=
  fun w => inr (tt, f w, []).

Definition call (e : Event) : Hook unit :=
  fun w => inr (tt, w, [e]).

Definition throw {A : Type} (e : Exn) : Hook A :=
  fun w => inl (e, w, []).

(** The collaborators, as calls. *)
Definition warning (condition : bool) (message : WarningMessage) : Hook unit :=
  call (WarningCall condition message).

Definition renderFn (renderOptions : Rendering.HitsPerPageRenderingOptions)
    (isFirstRender : bool) : Hook unit :=
  call (RenderCall renderOptions isFirstRender).

Definition unmountFn : Hook unit := call UnmountCall.

(** ** Construction *)

Definition is_default (item : Item.HitsPerPageWidgetOptionsItem) : bool :=
  match Item.default item with
  | Some true => true
  | _ => false
  end.

(** The widget factory: [connectHitsPerPage(renderFn, unmountFn)(widgetParams)].
    The two callbacks are the collaborators above, so that the check that
    [renderFn] is a function always passes.  The three errors are the checks
    [!Array.isArray(items)], [defaultItems.length === 0] and
    [defaultItems.length > 1]; otherwise [defaultItem] is [defaultItems[0]]. *)
Definition connectHitsPerPage (widgetParams : Options.HitsPerPageWidgetOptions)
    : Exn + Widget.Closure :=
  match Options.items widgetParams with
  | NotAnArray _ =>
      inl (Error (withUsage "The `items` option expects an array of objects."))
  | ArrayOf items =>
      let defaultItems := List.filter is_default items in
      match defaultItems with
      | [] =>
          inl (Error (withUsage "A default value must be specified in `items`."))
      | _ :: _ :: _ =>
          inl (Error
                 (withUsage "More than one default value is specified in `items`."))
      | [defaultItem] =>
          inr {| Widget.widgetParams := widgetParams;
                 Widget.transformItems :=
                   match Options.transformItems widgetParams with
                   | Some f => f
                   | None => fun items => items
                   end;
                 Widget.items := items;
                 Widget.defaultItem := defaultItem;
                 Widget.setHitsPerPage := None;
                 Widget.createURLFactory := None |}
      end
  end.

(** ** Normaliser, refine callback and URL factory *)

Definition normalizeItems (items : list Item.HitsPerPageWidgetOptionsItem)
    (state : gmap string JS.value)
    : list RenderingItem.HitsPerPageRenderingOptionsItem :=
  let hitsPerPage := SearchParameters.hitsPerPage state in
  map (fun item =>
         {| RenderingItem.label := Item.label item;
            RenderingItem.value := Item.value item;
            RenderingItem.default := Item.default item;
            RenderingItem.isRefined :=
              JS.number_eq (JS.Number (Item.value item))
                (JS.Number hitsPerPage) |})
      items.

(** [!value && value !== 0]. *)
Definition clears (value : JS.value) : bool :=
  (negb (JS.truthy value) && JS.strict_ne value JS.zero)%bool.

(** The closure assigned to [setHitsPerPage] by [init]; [helper] is the
    helper it captured. *)
Definition setHitsPerPage (value : JS.value) (helper : Helper.AlgoliaSearchHelper)
    : Helper.AlgoliaSearchHelper :=
  if clears value
  then Helper.search (Helper.setQueryParameter "hitsPerPage" JS.Undefined helper)
  else Helper.search (Helper.setQueryParameter "hitsPerPage" value helper).

(** The closure assigned to [createURLFactory] by [init]. *)
Definition createURLFactory (createURL : gmap string JS.value -> string)
    (helperState : gmap string JS.value) (value : JS.value) : string :=
  createURL
    (SearchParameters.setQueryParameter "hitsPerPage"
       (if clears value then JS.Undefined else value) helperState).

(** ** Lifecycle hooks *)

Module InitOptions.

Record InitOptions : Type := {
  helper : Helper.AlgoliaSearchHelper;
  createURL : gmap string JS.value -> string;
  state : gmap string JS.value;
  instantSearchInstance : InstantSearch
}.

End InitOptions.

Module RenderOptions.

Record RenderOptions : Type := {
  state : gmap string JS.value;
  results : SearchResults;
  instantSearchInstance : InstantSearch
}.

End RenderOptions.

(** The placeholder item [{ value: '', label: '' }]. *)
Definition emptyItem : Item.HitsPerPageWidgetOptionsItem :=
  {| Item.label := EmptyString;
     Item.value := JS.Str EmptyString;
     Item.default := None |}.

(** [items.some(item => Number(state.hitsPerPage) === Number(item.value))]. *)
Definition isCurrentInOptions (items : list Item.HitsPerPageWidgetOptionsItem)
    (state : gmap string JS.value) : bool :=
  existsb (fun item =>
             JS.number_eq (JS.Number (SearchParameters.hitsPerPage state))
               (JS.Number (Item.value item)))
          items.

(** A call of the closure variable [createURLFactory], which holds no
    function until [init] has assigned it. *)
Definition callCreateURLFactory (state : gmap string JS.value)
    : Hook (JS.value -> string) :=
  let* factory := read Widget.createURLFactory in
  match factory with
  | Some factory => ret (factory state)
  | None => throw (TypeError "createURLFactory is not a function")
  end.

Definition init (o : InitOptions.InitOptions) : Hook unit :=
  let state := InitOptions.state o in
  let* items := read Widget.items in
  let isCurrentInOptions := isCurrentInOptions items state in
  assign (Widget.with_setHitsPerPage setHitsPerPage) ;;
  (if negb isCurrentInOptions then
     warning (JS.strict_ne (SearchParameters.hitsPerPage state) JS.Undefined)
       HitsPerPageNotDefined ;;
     warning false (ValueNotInItems (SearchParameters.hitsPerPage state)) ;;
     assign (Widget.with_items (emptyItem :: items))
   else ret tt) ;;
  assign (Widget.with_createURLFactory (createURLFactory (InitOptions.createURL o))) ;;
  let* items := read Widget.items in
  let* transformItems := read Widget.transformItems in
  let* setHitsPerPage := read Widget.setHitsPerPage in
  let* createURL := callCreateURLFactory (Helper.state (InitOptions.helper o)) in
  let* widgetParams := read Widget.widgetParams in
  renderFn
    {| Rendering.items := transformItems (normalizeItems items state);
       Rendering.refine := setHitsPerPage;
       Rendering.createURL := createURL;
       Rendering.hasNoResults := true;
       Rendering.widgetParams := widgetParams;
       Rendering.instantSearchInstance := InitOptions.instantSearchInstance o |}
    true.

Definition render (o : RenderOptions.RenderOptions) : Hook unit :=
  let state := RenderOptions.state o in
  let hasNoResults :=
    JS.strict_eq (nbHits (RenderOptions.results o)) JS.zero in
  let* items := read Widget.items in
  let* transformItems := read Widget.transformItems in
  let* setHitsPerPage := read Widget.setHitsPerPage in
  let* createURL := callCreateURLFactory state in
  let* widgetParams := read Widget.widgetParams in
  renderFn
    {| Rendering.items := transformItems (normalizeItems items state);
       Rendering.refine := setHitsPerPage;
       Rendering.createURL := createURL;
       Rendering.hasNoResults := hasNoResults;
       Rendering.widgetParams := widgetParams;
       Rendering.instantSearchInstance :=
         RenderOptions.instantSearchInstance o |}
    false.

Definition dispose (state : gmap string JS.value)
    : Hook (gmap string JS.value) :=
  unmountFn ;;
  ret (SearchParameters.setQueryParameter "hitsPerPage" JS.Undefined state).

Definition getWidgetState (uiState : gmap string JS.value)
    (searchParameters : gmap string JS.value) : Hook (gmap string JS.value) :=
  let hitsPerPage := SearchParameters.hitsPerPage searchParameters in
  let* defaultItem := read Widget.defaultItem in
  if (JS.strict_eq hitsPerPage JS.Undefined
      || JS.strict_eq hitsPerPage (Item.value defaultItem))%bool
  then ret uiState
  else ret (<["hitsPerPage" := hitsPerPage]> uiState).

Definition getWidgetSearchParameters (searchParameters : gmap string JS.value)
    (uiState : gmap string JS.value) : Hook (gmap string JS.value) :=
  let* defaultItem := read Widget.defaultItem in
  ret (SearchParameters.setQueryParameters
         [("hitsPerPage",
           JS.or_else (SearchParameters.get "hitsPerPage" uiState)
             (Item.value defaultItem))]
         searchParameters).

(** ** The lifetime of a widget instance *)

(** The page size of the state is numerically equal to the value of some
    item of the list. *)
Definition listed (items : list Item.HitsPerPageWidgetOptionsItem)
    (state : gmap string JS.value) : Prop :=
  exists item, In item items /\
    JS.number_eq (JS.Number (SearchParameters.hitsPerPage state))
      (JS.Number (Item.value item)) = true.

(** The calls that the owning runtime makes on a widget. *)
Inductive HookCall : Type :=
| CallInit (o : InitOptions.InitOptions)
| CallRender (o : RenderOptions.RenderOptions)
| CallDispose (state : gmap string JS.value)
| CallGetWidgetState (uiState searchParameters : gmap string JS.value)
| CallGetWidgetSearchParameters (searchParameters uiState : gmap string JS.value).

Definition invoke (c : HookCall) : Hook unit :=
  match c with
  | CallInit o => init o
  | CallRender o => render o
  | CallDispose state => dispose state ;; ret tt
  | CallGetWidgetState uiState searchParameters =>
      getWidgetState uiState searchParameters ;; ret tt
  | CallGetWidgetSearchParameters searchParameters uiState =>
      getWidgetSearchParameters searchParameters uiState ;; ret tt
  end.

(** The closure after a hook has run, to its end or to a throw. *)
Definition closure_after {A : Type} (m : Hook A) (w : Widget.Closure)
    : Widget.Closure :=
  match m w with
  | inr (_, w', _) => w'
  | inl (_, w', _) => w'
  end.

(** The calls a hook made to the collaborators, to its end or to a throw. *)
Definition trace_of {A : Type} (m : Hook A) (w : Widget.Closure) : list Event :=
  match m w with
  | inr (_, _, t) => t
  | inl (_, _, t) => t
  end.

Definition lifetime (calls : list HookCall) (w : Widget.Closure)
    : Widget.Closure :=
  fold_left (fun w c => closure_after (invoke c) w) calls w.

(** ** Running example: the two items of the spec *)

Definition item6 : Item.HitsPerPageWidgetOptionsItem :=
  {| Item.label := "6"; Item.value := JS.Num (JS.Int 6);
     Item.default := Some true |}.

Definition item12 : Item.HitsPerPageWidgetOptionsItem :=
  {| Item.label := "12"; Item.value := JS.Num (JS.Int 12);
     Item.default := None |}.

Definition exampleParams : Options.HitsPerPageWidgetOptions :=
  {| Options.items := ArrayOf [item6; item12];
     Options.transformItems := None |}.

Definition exampleWidget : Widget.Closure :=
  {| Widget.widgetParams := exampleParams;
     Widget.transformItems := fun items => items;
     Widget.items := [item6; item12];
     Widget.defaultItem := item6;
     Widget.setHitsPerPage := None;
     Widget.createURLFactory := None |}.

Definition pageSize (z : Z) : gmap string JS.value :=
  {["hitsPerPage" := JS.Num (JS.Int z)]}.

Definition emptyHelper : Helper.AlgoliaSearchHelper :=
  {| Helper.state := ∅; Helper.searches := [] |}.

Definition initWith (state : gmap string JS.value) : InitOptions.InitOptions :=
  {| InitOptions.helper := emptyHelper;
     InitOptions.createURL := fun _ => "#";
     InitOptions.state := state;
     InitOptions.instantSearchInstance := InstantSearchRef 0 |}.


(** The closure and the rendering payload that [init] leaves behind. *)
Definition initialized (o : InitOptions.InitOptions) (w : Widget.Closure)
    : Widget.Closure :=
  Widget.with_createURLFactory (createURLFactory (InitOptions.createURL o))
    (Widget.with_setHitsPerPage setHitsPerPage w).

Definition firstRendering (o : InitOptions.InitOptions) (w : Widget.Closure)
    : Rendering.HitsPerPageRenderingOptions :=
  {| Rendering.items :=
       Widget.transformItems w
         (normalizeItems (Widget.items w) (InitOptions.state o));
     Rendering.refine := Some setHitsPerPage;
     Rendering.createURL :=
       createURLFactory (InitOptions.createURL o)
         (Helper.state (InitOptions.helper o));
     Rendering.hasNoResults := true;
     Rendering.widgetParams := Widget.widgetParams w;
     Rendering.instantSearchInstance := InitOptions.instantSearchInstance o |}.

(** The number of items flagged [default: true]. *)
Fixpoint defaults_in (items : list Item.HitsPerPageWidgetOptionsItem) : nat :=
  match items with
  | [] => O
  | item :: rest =>
      if is_default item then S (defaults_in rest) else defaults_in rest
  end.

(** What [init] assigns to [items]: the list itself when the page size of the
    state is listed, the list behind the placeholder item otherwise. *)
Definition recovered (o : InitOptions.InitOptions) (w : Widget.Closure)
    : Widget.Closure :=
  if isCurrentInOptions (Widget.items w) (InitOptions.state o) then w
  else Widget.with_items (emptyItem :: Widget.items w) w.

Definition renderWith (state : gmap string JS.value) (hits : Z)
    : RenderOptions.RenderOptions :=
  {| RenderOptions.state := state;
     RenderOptions.results := {| nbHits := JS.Num (JS.Int hits) |};
     RenderOptions.instantSearchInstance := InstantSearchRef 0 |}.

(** The UI state [{ hitsPerPage: '' }]. *)
Definition emptyPageSize : gmap string JS.value :=
  {["hitsPerPage" := JS.Str EmptyString]}.

(** ** Sequences of calls *)

Definition is_init (c : HookCall) : bool :=
  match c with
  | CallInit _ => true
  | _ => false
  end.

(** No call of the sequence is a call of [init]. *)
Definition without_init (calls : list HookCall) : bool :=
  forallb (fun c => negb (is_init c)) calls.

(** The refine callback called with each value in turn. *)
Definition refineAll (values : list JS.value)
    (helper : Helper.AlgoliaSearchHelper) : Helper.AlgoliaSearchHelper :=
  fold_left (fun helper value => setHitsPerPage value helper) values helper.

(** The page size of the state is numerically [0]. *)
Definition numericallyZero (state : gmap string JS.value) : bool :=
  JS.number_eq (JS.Number (SearchParameters.hitsPerPage state)) (JS.Int 0).

(** [typeof v === 'string']. *)
Definition isString (v : JS.value) : bool :=
  match v with
  | JS.Str _ => true
  | _ => false
  end.

Definition itemOf (value : JS.value) : Item.HitsPerPageWidgetOptionsItem :=
  {| Item.label := EmptyString; Item.value := value; Item.default := None |}.

(** Items whose values are the number 12, spellings of 12 as a string, and
    values that are not 12. *)
Definition twelves : list Item.HitsPerPageWidgetOptionsItem :=
  map itemOf
    [JS.Num (JS.Int 12); JS.Str "12"; JS.Str " 12.0 "; JS.Str "1.2e1";
     JS.Str "0x0C"; JS.Undefined; JS.Str EmptyString; JS.Str "12px";
     JS.Num (JS.Int 6)].

(** ** Basic facts *)

Example Number_of_empty_string : JS.Number (JS.Str EmptyString) = JS.Int 0.
Proof. reflexivity. Qed.

Example Number_of_numeric_string : JS.Number (JS.Str " 12 ") = JS.Int 12.
Proof. reflexivity. Qed.

Example Number_of_spellings_of_twelve :
  map (fun s => JS.Number (JS.Str s))
    ["12.0"; "12."; "1.2e1"; "120E-1"; "0x0C"; "0o14"; "0b1100"; "+12"] =
    repeat (JS.Int 12) 8.
Proof. vm_compute. reflexivity. Qed.

Example Number_of_no_number :
  map (fun s => JS.Number (JS.Str s))
    ["12px"; "1_2"; "."; "e1"; "1e"; "0x"; "-0x0C"; "infinity"; "1 2"] =
    repeat JS.NaN 9.
Proof. vm_compute. reflexivity. Qed.

Example Number_of_infinities :
  JS.Number (JS.Str "Infinity") = JS.Infinity false /\
  JS.Number (JS.Str "-Infinity") = JS.Infinity true /\
  JS.Number (JS.Str "1e309") = JS.Infinity false.
Proof. vm_compute. repeat split. Qed.

Example Number_of_fractions :
  JS.float (JS.Number (JS.Str "0.1")) =
    SpecFloat.S754_finite false 7205759403792794 (-56) /\
  JS.float (JS.Number (JS.Str "4.9e-324")) =
    SpecFloat.S754_finite false 1 (-1074) /\
  JS.Number (JS.Str "1e-400") = JS.Int 0 /\
  JS.Number (JS.Str "-0") = JS.Int 0.
Proof. vm_compute. repeat split. Qed.

Example Number_rounds_to_nearest_even :
  JS.Number (JS.Str "9007199254740993") = JS.Int 9007199254740992 /\
  JS.Number (JS.Str "9007199254740995") = JS.Int 9007199254740996 /\
  JS.Int 9007199254740993 = JS.Int 9007199254740992.
Proof. vm_compute. repeat split. Qed.

Example undefined_is_not_listed_as_undefined :
  JS.number_eq (JS.Number JS.Undefined) (JS.Number JS.Undefined) = false.
Proof. reflexivity. Qed.

Example zero_is_not_cleared :
  clears JS.zero = false /\ clears (JS.Str EmptyString) = true /\
  clears JS.Undefined = true.
Proof. repeat split. Qed.

(** ** Equality on values *)

(** A number is determined by its representation. *)
Lemma number_ext (a b : JS.number) : JS.float a = JS.float b -> a = b.
Proof.
  destruct a as [fa Ha], b as [fb Hb]. simpl. intros <-.
  f_equal. apply UIP_dec, Bool.bool_dec.
Qed.

Lemma SFeqb_eq (f g : SpecFloat.spec_float) :
  JS.is_double f = true -> JS.is_double g = true ->
  SpecFloat.SFeqb f g = true -> f = g.
Proof.
  unfold SpecFloat.SFeqb.
  destruct f as [sf|sf| |sf mf ef], g as [sg|sg| |sg mg eg]; simpl;
    intros Hf Hg H; try discriminate H;
    try (destruct sf; discriminate H); try (destruct sg; discriminate H).
  - destruct sf, sg; try discriminate; reflexivity.
  - destruct sf, sg; try discriminate H; reflexivity.
  - destruct sf, sg; try discriminate H;
      destruct (Z.compare ef eg) eqn:Ee; try discriminate H;
      apply Z.compare_eq in Ee; subst eg;
      destruct (Pos.compare_cont Eq mf mg) eqn:Em; try discriminate H;
      apply Pos.compare_eq in Em; subst mg; reflexivity.
Qed.

Lemma SFeqb_refl (f : SpecFloat.spec_float) :
  f <> SpecFloat.S754_nan -> SpecFloat.SFeqb f f = true.
Proof.
  unfold SpecFloat.SFeqb.
  destruct f as [sf|sf| |sf mf ef]; simpl; intros H.
  - reflexivity.
  - destruct sf; reflexivity.
  - congruence.
  - fold (Pos.compare mf mf).
    destruct sf; rewrite Z.compare_refl, Pos.compare_refl; reflexivity.
Qed.

Lemma number_eq_eq (a b : JS.number) : JS.number_eq a b = true -> a = b.
Proof.
  intros H. apply number_ext.
  apply SFeqb_eq; [apply JS.float_is_double | apply JS.float_is_double | exact H].
Qed.

Lemma number_eq_refl (a : JS.number) :
  a <> JS.NaN -> JS.number_eq a a = true.
Proof.
  intros H. apply SFeqb_refl. intros Hnan. apply H, number_ext, Hnan.
Qed.

Lemma number_eq_sym (a b : JS.number) : JS.number_eq a b = JS.number_eq b a.
Proof.
  destruct (JS.number_eq a b) eqn:Eab.
  - apply number_eq_eq in Eab as Heq. subst b. symmetry. exact Eab.
  - destruct (JS.number_eq b a) eqn:Eba; [|reflexivity].
    apply number_eq_eq in Eba as Heq. subst b. congruence.
Qed.

Lemma number_eq_NaN (b : JS.number) : JS.number_eq JS.NaN b = false.
Proof. reflexivity. Qed.

Lemma strict_eq_eq (a b : JS.value) : JS.strict_eq a b = true -> a = b.
Proof.
  destruct a as [| |x|x|x], b as [| |y|y|y]; simpl; try discriminate;
    try reflexivity; intros H.
  - apply Bool.eqb_prop in H. congruence.
  - apply number_eq_eq in H. congruence.
  - apply String.eqb_eq in H. congruence.
Qed.

Lemma strict_eq_refl (a : JS.value) :
  a <> JS.Num JS.NaN -> JS.strict_eq a a = true.
Proof.
  destruct a as [| |x|x|x]; simpl; intros H; try reflexivity.
  - apply Bool.eqb_reflx.
  - apply number_eq_refl. congruence.
  - apply String.eqb_refl.
Qed.

Lemma hitsPerPage_setQueryParameter (v : JS.value) (sp : gmap string JS.value) :
  SearchParameters.hitsPerPage
    (SearchParameters.setQueryParameter "hitsPerPage" v sp) = v.
Proof.
  unfold SearchParameters.hitsPerPage, SearchParameters.get,
    SearchParameters.setQueryParameter.
  destruct v; rewrite ?lookup_delete_eq, ?lookup_insert_eq; reflexivity.
Qed.

Lemma setQueryParameter_other (k k' : string) (v : JS.value)
    (sp : gmap string JS.value) :
  k <> k' -> SearchParameters.setQueryParameter k v sp !! k' = sp !! k'.
Proof.
  intros Hne. unfold SearchParameters.setQueryParameter.
  destruct v; rewrite ?lookup_delete_ne, ?lookup_insert_ne; auto.
Qed.

Lemma isCurrentInOptions_listed (items : list Item.HitsPerPageWidgetOptionsItem)
    (state : gmap string JS.value) :
  isCurrentInOptions items state = true <-> listed items state.
Proof.
  unfold isCurrentInOptions, listed. rewrite existsb_exists. reflexivity.
Qed.

Lemma init_listed (o : InitOptions.InitOptions) (w : Widget.Closure) :
  isCurrentInOptions (Widget.items w) (InitOptions.state o) = true ->
  init o w = inr (tt, initialized o w, [RenderCall (firstRendering o w) true]).
Proof.
  intros H.
  unfold init, callCreateURLFactory, bind, read, assign, ret, warning, renderFn,
    call.
  cbn. rewrite H. reflexivity.
Qed.

Lemma init_unlisted (o : InitOptions.InitOptions) (w : Widget.Closure) :
  isCurrentInOptions (Widget.items w) (InitOptions.state o) = false ->
  let w' := Widget.with_items (emptyItem :: Widget.items w) w in
  init o w =
    inr (tt, initialized o w',
         [WarningCall
            (JS.strict_ne (SearchParameters.hitsPerPage (InitOptions.state o))
               JS.Undefined)
            HitsPerPageNotDefined;
          WarningCall false
            (ValueNotInItems
               (SearchParameters.hitsPerPage (InitOptions.state o)));
          RenderCall (firstRendering o w') true]).
Proof.
  intros H.
  unfold init, callCreateURLFactory, bind, read, assign, ret, warning, renderFn,
    call.
  cbn. rewrite H. reflexivity.
Qed.

Lemma defaults_in_filter (items : list Item.HitsPerPageWidgetOptionsItem) :
  defaults_in items = length (List.filter is_default items).
Proof.
  induction items as [|item rest IH]; simpl; [reflexivity|].
  destruct (is_default item); simpl; congruence.
Qed.

Lemma init_runs (o : InitOptions.InitOptions) (w : Widget.Closure) :
  exists t, init o w = inr (tt, initialized o (recovered o w), t).
Proof.
  unfold recovered.
  destruct (isCurrentInOptions (Widget.items w) (InitOptions.state o)) eqn:E.
  - eexists. apply init_listed, E.
  - eexists. apply (init_unlisted o w E).
Qed.

Lemma closure_after_init (o : InitOptions.InitOptions) (w : Widget.Closure) :
  closure_after (init o) w = initialized o (recovered o w).
Proof.
  unfold closure_after. destruct (init_runs o w) as [t ->]. reflexivity.
Qed.

Lemma render_runs (o : RenderOptions.RenderOptions) (w : Widget.Closure)
    (f : gmap string JS.value -> JS.value -> string) :
  Widget.createURLFactory w = Some f ->
  render o w =
    inr (tt, w,
         [RenderCall
            {| Rendering.items :=
                 Widget.transformItems w
                   (normalizeItems (Widget.items w) (RenderOptions.state o));
               Rendering.refine := Widget.setHitsPerPage w;
               Rendering.createURL := f (RenderOptions.state o);
               Rendering.hasNoResults :=
                 JS.strict_eq (nbHits (RenderOptions.results o)) JS.zero;
               Rendering.widgetParams := Widget.widgetParams w;
               Rendering.instantSearchInstance :=
                 RenderOptions.instantSearchInstance o |}
            false]).
Proof.
  intros H. unfold render, callCreateURLFactory, bind, read, ret, renderFn, call.
  cbn. rewrite H. reflexivity.
Qed.

Lemma render_before_init (o : RenderOptions.RenderOptions) (w : Widget.Closure) :
  Widget.createURLFactory w = None ->
  render o w = inl (TypeError "createURLFactory is not a function", w, []).
Proof.
  intros H. unfold render, callCreateURLFactory, bind, read, throw. cbn.
  rewrite H. reflexivity.
Qed.

Lemma closure_after_render (o : RenderOptions.RenderOptions)
    (w : Widget.Closure) :
  closure_after (render o) w = w.
Proof.
  unfold closure_after.
  destruct (Widget.createURLFactory w) as [f|] eqn:E.
  - rewrite (render_runs o w f E). reflexivity.
  - rewrite (render_before_init o w E). reflexivity.
Qed.

(** Only [init] assigns closure variables. *)
Lemma closure_after_invoke (c : HookCall) (w : Widget.Closure) :
  closure_after (invoke c) w =
    match c with
    | CallInit o => initialized o (recovered o w)
    | _ => w
    end.
Proof.
  destruct c; simpl.
  - apply closure_after_init.
  - apply closure_after_render.
  - reflexivity.
  - unfold closure_after, bind, getWidgetState, read, ret. cbn.
    destruct (_ || _)%bool; reflexivity.
  - reflexivity.
Qed.

Lemma lifetime_cons (c : HookCall) (calls : list HookCall)
    (w : Widget.Closure) :
  lifetime (c :: calls) w = lifetime calls (closure_after (invoke c) w).
Proof. reflexivity. Qed.

(** An invariant of the closure that every hook keeps holds for the whole
    lifetime. *)
Lemma lifetime_invariant (P : Widget.Closure -> Prop) :
  (forall c w, P w -> P (closure_after (invoke c) w)) ->
  forall calls w, P w -> P (lifetime calls w).
Proof.
  intros Hstep calls. induction calls as [|c calls IH]; intros w Hw.
  - exact Hw.
  - rewrite lifetime_cons. apply IH, Hstep, Hw.
Qed.

Lemma defaultItem_step (c : HookCall) (w : Widget.Closure) :
  Widget.defaultItem (closure_after (invoke c) w) = Widget.defaultItem w.
Proof.
  rewrite closure_after_invoke. destruct c; try reflexivity.
  unfold initialized, recovered.
  destruct (isCurrentInOptions _ _); reflexivity.
Qed.

Lemma items_step (c : HookCall) (w : Widget.Closure) :
  Widget.items (closure_after (invoke c) w) = Widget.items w \/
  Widget.items (closure_after (invoke c) w) = emptyItem :: Widget.items w.
Proof.
  rewrite closure_after_invoke. destruct c; auto.
  unfold initialized, recovered.
  destruct (isCurrentInOptions _ _); simpl; auto.
Qed.

Lemma createURLFactory_step (c : HookCall) (w : Widget.Closure) :
  is_Some (Widget.createURLFactory w) ->
  is_Some (Widget.createURLFactory (closure_after (invoke c) w)).
Proof.
  rewrite closure_after_invoke. destruct c; auto; intros _; simpl; eauto.
Qed.

Lemma setHitsPerPage_state (value : JS.value)
    (helper : Helper.AlgoliaSearchHelper) :
  SearchParameters.hitsPerPage (Helper.state (setHitsPerPage value helper)) =
    if clears value then JS.Undefined else value.
Proof.
  unfold setHitsPerPage.
  destruct (clears value); apply hitsPerPage_setQueryParameter.
Qed.

(** ** Construction *)

(** C1: building a widget throws the documented error when the [items] option
    is not an array, when no item is flagged as default and when more than
    one item is; when exactly one item is flagged, the widget is built over
    the given items and that item is its default item. *)
Theorem construction_checks_items
    (widgetParams : Options.HitsPerPageWidgetOptions) :
  match Options.items widgetParams with
  | NotAnArray _ =>
      connectHitsPerPage widgetParams =
        inl (Error (withUsage "The `items` option expects an array of objects."))
  | ArrayOf items =>
      match defaults_in items with
      | O =>
          connectHitsPerPage widgetParams =
            inl (Error (withUsage "A default value must be specified in `items`."))
      | S O =>
          exists w,
            connectHitsPerPage widgetParams = inr w /\
            Widget.items w = items /\
            In (Widget.defaultItem w) items /\
            Item.default (Widget.defaultItem w) = Some true /\
            List.filter is_default items = [Widget.defaultItem w]
      | S (S _) =>
          connectHitsPerPage widgetParams =
            inl (Error
                   (withUsage
                      "More than one default value is specified in `items`."))
      end
  end.
Proof.
  unfold connectHitsPerPage.
  destruct (Options.items widgetParams) as [v|items]; [reflexivity|].
  rewrite defaults_in_filter.
  destruct (List.filter is_default items) as [|d [|d' rest]] eqn:E; simpl;
    try reflexivity.
  assert (Hd : In d (List.filter is_default items))
    by (rewrite E; left; reflexivity).
  apply filter_In in Hd as [Hin Hflag].
  eexists. split; [reflexivity|]. simpl. repeat split; auto.
  unfold is_default in Hflag.
  destruct (Item.default d) as [[|]|]; congruence.
Qed.

(** ** The refine callback *)

(** C2: the refine callback that [init] installs sets the page size to [0]
    when called with [0], clears it when called with any other falsy value,
    sets it to the value when called with a truthy value, and in every case
    then issues one search for the resulting state. *)
Theorem refine_sets_page_size_then_searches
    (value : JS.value) (helper : Helper.AlgoliaSearchHelper) :
  let helper' := setHitsPerPage value helper in
  SearchParameters.hitsPerPage (Helper.state helper') =
    (if JS.strict_eq value JS.zero then JS.zero
     else if JS.truthy value then value
     else JS.Undefined) /\
  Helper.searches helper' = Helper.searches helper ++ [Helper.state helper'] /\
  forall o w,
    Widget.setHitsPerPage (closure_after (init o) w) = Some setHitsPerPage /\
    exists t opts,
      trace_of (init o) w = t ++ [RenderCall opts true] /\
      Rendering.refine opts = Some setHitsPerPage.
Proof.
  cbv zeta. split; [|split].
  - rewrite setHitsPerPage_state. unfold clears, JS.strict_ne.
    destruct (JS.strict_eq value JS.zero) eqn:E.
    + apply strict_eq_eq in E. subst value. reflexivity.
    + destruct (JS.truthy value); reflexivity.
  - unfold setHitsPerPage. destruct (clears value); reflexivity.
  - intros o w. split.
    + rewrite closure_after_init. unfold initialized, recovered.
      destruct (isCurrentInOptions _ _); reflexivity.
    + unfold trace_of.
      destruct (isCurrentInOptions (Widget.items w) (InitOptions.state o))
        eqn:E.
      * rewrite (init_listed o w E). exists [], (firstRendering o w).
        split; reflexivity.
      * rewrite (init_unlisted o w E).
        eexists [_; _], _. split; reflexivity.
Qed.

(** ** The item normaliser *)

(** C6: [normalizeItems] returns one item per working item, with the same
    label, value and default flag, and with [isRefined] telling whether the
    value of the item and the current page size are equal as numbers; for the
    items 6 (default) and 12 and the page size 12, the item 12 is refined and
    the item 6 is not.  The comparison is the one of [Number]: for the page
    size 12, as a number or as a string, the items whose value is 12 or a
    string that reads as 12 are refined, and no others. *)
Theorem normalizeItems_marks_refined
    (items : list Item.HitsPerPageWidgetOptionsItem)
    (state : gmap string JS.value) :
  length (normalizeItems items state) = length items /\
  Forall2
    (fun item out =>
       RenderingItem.label out = Item.label item /\
       RenderingItem.value out = Item.value item /\
       RenderingItem.default out = Item.default item /\
       RenderingItem.isRefined out =
         JS.number_eq (JS.Number (Item.value item))
           (JS.Number (SearchParameters.hitsPerPage state)))
    items (normalizeItems items state) /\
  normalizeItems [item6; item12] (pageSize 12) =
    [ {| RenderingItem.label := "6";
         RenderingItem.value := JS.Num (JS.Int 6);
         RenderingItem.default := Some true;
         RenderingItem.isRefined := false |};
      {| RenderingItem.label := "12";
         RenderingItem.value := JS.Num (JS.Int 12);
         RenderingItem.default := None;
         RenderingItem.isRefined := true |} ] /\
  map RenderingItem.isRefined (normalizeItems twelves (pageSize 12)) =
    [true; true; true; true; true; false; false; false; false] /\
  map RenderingItem.isRefined
    (normalizeItems twelves {["hitsPerPage" := JS.Str "12.00"]}) =
    [true; true; true; true; true; false; false; false; false].
Proof.
  split; [|split; [|split; [|split]]].
  - unfold normalizeItems. apply length_map.
  - unfold normalizeItems.
    induction items as [|item rest IH]; simpl; constructor; auto.
  - vm_compute. reflexivity.
  - vm_compute. reflexivity.
  - vm_compute. reflexivity.
Qed.

(** ** Dispose *)

(** C8: [dispose] calls the unmount callback once and returns the state it was
    given with the page size cleared and every other parameter as it was. *)
Theorem dispose_unmounts_and_clears
    (state : gmap string JS.value) (w : Widget.Closure) :
  exists state',
    dispose state w = inr (state', w, [UnmountCall]) /\
    state' =
      SearchParameters.setQueryParameter "hitsPerPage" JS.Undefined state /\
    SearchParameters.hitsPerPage state' = JS.Undefined /\
    forall k, k <> "hitsPerPage" -> state' !! k = state !! k.
Proof.
  eexists. split; [reflexivity|]. split; [reflexivity|]. split.
  - apply hitsPerPage_setQueryParameter.
  - intros k Hk. apply setQueryParameter_other. congruence.
Qed.

Lemma dispose_unmounts_and_clears_witness :
  exists state',
    dispose (<["query" := JS.Str "phone"]> (pageSize 12)) exampleWidget =
      inr (state', exampleWidget, [UnmountCall]) /\
    SearchParameters.hitsPerPage state' = JS.Undefined /\
    state' !! "query" = Some (JS.Str "phone").
Proof.
  destruct (dispose_unmounts_and_clears
              (<["query" := JS.Str "phone"]> (pageSize 12)) exampleWidget)
    as (state' & Hrun & _ & Hcleared & Hother).
  exists state'. split; [exact Hrun|]. split; [exact Hcleared|].
  rewrite (Hother "query"); [reflexivity | discriminate].
Defined.

(** ** Unlisted-value recovery *)

Lemma lifetime_defaultItem (calls : list HookCall) (w : Widget.Closure) :
  Widget.defaultItem (lifetime calls w) = Widget.defaultItem w.
Proof.
  apply (lifetime_invariant
           (fun w' => Widget.defaultItem w' = Widget.defaultItem w));
    [|reflexivity].
  intros c w' H. rewrite defaultItem_step. exact H.
Qed.

(** The working list only ever grows, by placeholder items at its head. *)
Lemma lifetime_items (calls : list HookCall) (w : Widget.Closure) :
  exists added,
    Forall (fun item => item = emptyItem) added /\
    Widget.items (lifetime calls w) = added ++ Widget.items w.
Proof.
  revert w. induction calls as [|c calls IH]; intros w.
  - exists []. split; [constructor|reflexivity].
  - rewrite lifetime_cons.
    destruct (IH (closure_after (invoke c) w)) as (added & Hadded & Heq).
    destruct (items_step c w) as [Hsame|Hgrown].
    + exists added. rewrite Heq, Hsame. auto.
    + exists (added ++ [emptyItem]). split.
      * apply Forall_app. split; [exact Hadded|]. constructor; auto.
      * rewrite Heq, Hgrown, <- app_assoc. reflexivity.
Qed.

Lemma not_listed_false (items : list Item.HitsPerPageWidgetOptionsItem)
    (state : gmap string JS.value) :
  ~ listed items state -> isCurrentInOptions items state = false.
Proof.
  intros H. destruct (isCurrentInOptions items state) eqn:E; [|reflexivity].
  exfalso. apply H, isCurrentInOptions_listed, E.
Qed.

(** C3, as the code has it: when the page size of the state is numerically
    equal to the value of some item, [init] calls [warning] not at all and
    leaves the working list as it is. Otherwise it calls [warning] twice: the
    first call, for a page size that is not defined, is guarded by the
    condition that the page size differs from [undefined], so that it logs
    only for an undefined page size; the second call logs unconditionally.
    Two diagnostics are logged for an undefined page size and one for a
    defined page size that is not listed.  The placeholder item with the
    empty string as value and as label is put in front of the working list,
    and stays in it for the rest of the lifetime of the widget. *)
Theorem init_recovers_unlisted_value
    (o : InitOptions.InitOptions) (w : Widget.Closure) :
  let hitsPerPage := SearchParameters.hitsPerPage (InitOptions.state o) in
  let t := trace_of (init o) w in
  let w' := closure_after (init o) w in
  (listed (Widget.items w) (InitOptions.state o) ->
   List.filter is_warning t = [] /\
   Widget.items w' = Widget.items w) /\
  (~ listed (Widget.items w) (InitOptions.state o) ->
   List.filter is_warning t =
     [WarningCall (JS.strict_ne hitsPerPage JS.Undefined) HitsPerPageNotDefined;
      WarningCall false (ValueNotInItems hitsPerPage)] /\
   length (List.filter logged t) =
     (if JS.strict_eq hitsPerPage JS.Undefined then 2 else 1)%nat /\
   Widget.items w' = emptyItem :: Widget.items w /\
   Item.value emptyItem = JS.Str EmptyString /\
   Item.label emptyItem = EmptyString /\
   forall calls, exists added,
     Widget.items (lifetime calls w') =
       added ++ emptyItem :: Widget.items w).
Proof.
  cbv zeta. split.
  - intros H. apply isCurrentInOptions_listed in H.
    unfold trace_of. rewrite closure_after_init, (init_listed o w H).
    unfold recovered. rewrite H. split; reflexivity.
  - intros H. apply not_listed_false in H.
    assert (Hitems :
      Widget.items (closure_after (init o) w) = emptyItem :: Widget.items w).
    { rewrite closure_after_init. unfold recovered. rewrite H. reflexivity. }
    unfold trace_of. rewrite (init_unlisted o w H).
    split; [reflexivity|]. split.
    + unfold JS.strict_ne.
      destruct (JS.strict_eq _ JS.Undefined); reflexivity.
    + split; [exact Hitems|]. split; [reflexivity|]. split; [reflexivity|].
      intros calls.
      destruct (lifetime_items calls (closure_after (init o) w))
        as (added & _ & Heq).
      exists added. rewrite Heq, Hitems. reflexivity.
Qed.

Lemma init_recovers_unlisted_value_witness :
  listed (Widget.items exampleWidget)
    (InitOptions.state (initWith (pageSize 12))) /\
  Widget.items (closure_after (init (initWith (pageSize 12))) exampleWidget) =
    [item6; item12] /\
  ~ listed (Widget.items exampleWidget) (InitOptions.state (initWith ∅)) /\
  length
    (List.filter logged (trace_of (init (initWith ∅)) exampleWidget)) = 2%nat /\
  Widget.items (closure_after (init (initWith ∅)) exampleWidget) =
    [emptyItem; item6; item12].
Proof.
  assert (H12 : listed (Widget.items exampleWidget)
                  (InitOptions.state (initWith (pageSize 12))))
    by (apply isCurrentInOptions_listed; vm_compute; reflexivity).
  assert (H0 : ~ listed (Widget.items exampleWidget)
                   (InitOptions.state (initWith ∅)))
    by (intros H; apply isCurrentInOptions_listed in H; vm_compute in H;
        discriminate H).
  split; [exact H12|]. split.
  - exact (proj2 (proj1 (init_recovers_unlisted_value
                           (initWith (pageSize 12)) exampleWidget) H12)).
  - split; [exact H0|].
    pose proof (proj2 (init_recovers_unlisted_value (initWith ∅) exampleWidget)
                  H0) as (_ & Hlogged & Hitems & _).
    split; [exact Hlogged | exact Hitems].
Defined.

(** C3, as stated, fails: for the items 6 (default) and 12 and the page size
    24 in the state, which is not listed, [init] logs one diagnostic, not
    two; the guard of the first call holds. *)
Lemma init_unlisted_defined_value_logs_once :
  connectHitsPerPage exampleParams = inr exampleWidget /\
  ~ listed (Widget.items exampleWidget)
      (InitOptions.state (initWith (pageSize 24))) /\
  List.filter logged (trace_of (init (initWith (pageSize 24))) exampleWidget) =
    [WarningCall false (ValueNotInItems (JS.Num (JS.Int 24)))] /\
  length
    (List.filter logged (trace_of (init (initWith (pageSize 24))) exampleWidget))
    <> 2%nat.
Proof.
  split; [reflexivity|]. split.
  - intros H. apply isCurrentInOptions_listed in H. vm_compute in H.
    discriminate H.
  - split; [vm_compute; reflexivity|]. vm_compute. discriminate.
Qed.

(** ** State export and import *)

Lemma strict_eq_Undefined (v : JS.value) :
  JS.strict_eq v JS.Undefined = true <-> v = JS.Undefined.
Proof. destruct v; simpl; split; congruence. Qed.

Lemma getWidgetSearchParameters_runs
    (searchParameters uiState : gmap string JS.value) (w : Widget.Closure) :
  getWidgetSearchParameters searchParameters uiState w =
    inr (SearchParameters.setQueryParameter "hitsPerPage"
           (JS.or_else (SearchParameters.get "hitsPerPage" uiState)
              (Item.value (Widget.defaultItem w)))
           searchParameters,
         w, []).
Proof. reflexivity. Qed.

(** C5: [getWidgetState] returns the UI state it was given when the page size
    of the search parameters is undefined or strictly equal to the value of
    the default item; otherwise it returns that UI state with the field
    [hitsPerPage] holding the page size, and its other fields as they were. *)
Theorem getWidgetState_omits_default
    (uiState searchParameters : gmap string JS.value) (w : Widget.Closure) :
  let hitsPerPage := SearchParameters.hitsPerPage searchParameters in
  let defaultValue := Item.value (Widget.defaultItem w) in
  exists uiState',
    getWidgetState uiState searchParameters w = inr (uiState', w, []) /\
    (hitsPerPage = JS.Undefined \/
     JS.strict_eq hitsPerPage defaultValue = true ->
     uiState' = uiState) /\
    (hitsPerPage <> JS.Undefined ->
     JS.strict_eq hitsPerPage defaultValue = false ->
     uiState' = <["hitsPerPage" := hitsPerPage]> uiState /\
     uiState' !! "hitsPerPage" = Some hitsPerPage /\
     forall k, k <> "hitsPerPage" -> uiState' !! k = uiState !! k).
Proof.
  cbv zeta. unfold getWidgetState, bind, read, ret. cbn.
  destruct (JS.strict_eq (SearchParameters.hitsPerPage searchParameters)
              JS.Undefined) eqn:Eu;
    [|destruct (JS.strict_eq (SearchParameters.hitsPerPage searchParameters)
                  (Item.value (Widget.defaultItem w))) eqn:Ed];
    cbn; eexists; (split; [reflexivity|]).
  - split; [reflexivity|]. intros Hne. apply strict_eq_Undefined in Eu.
    contradiction.
  - split; [reflexivity|]. intros _ Hf. discriminate Hf.
  - split.
    + intros [Hu|Hd]; [|discriminate Hd].
      apply strict_eq_Undefined in Hu. congruence.
    + intros _ _. split; [reflexivity|]. split.
      * apply lookup_insert_eq.
      * intros k Hk. apply lookup_insert_ne. congruence.
Qed.

Lemma getWidgetState_omits_default_witness :
  (exists uiState',
     getWidgetState ∅ (pageSize 6) exampleWidget =
       inr (uiState', exampleWidget, []) /\ uiState' = ∅) /\
  (exists uiState',
     getWidgetState ∅ (pageSize 12) exampleWidget =
       inr (uiState', exampleWidget, []) /\ uiState' = pageSize 12).
Proof.
  split.
  - destruct (getWidgetState_omits_default ∅ (pageSize 6) exampleWidget)
      as (u & Hrun & Hsame & _).
    exists u. split; [exact Hrun|]. apply Hsame. right. reflexivity.
  - destruct (getWidgetState_omits_default ∅ (pageSize 12) exampleWidget)
      as (u & Hrun & _ & Hext).
    exists u. split; [exact Hrun|].
    apply Hext; [discriminate | reflexivity].
Defined.

(** C4, as the code has it: [getWidgetSearchParameters] returns the search
    parameters it was given with the page size set to the [hitsPerPage] of
    the UI state when that value is truthy, and to the value of the default
    item when the field is absent or holds a value that the refine callback
    would clear (a falsy value other than [0]); no other parameter differs. *)
Theorem import_applies_ui_state
    (searchParameters uiState : gmap string JS.value) (w : Widget.Closure) :
  let hitsPerPage := SearchParameters.get "hitsPerPage" uiState in
  exists searchParameters',
    getWidgetSearchParameters searchParameters uiState w =
      inr (searchParameters', w, []) /\
    (JS.truthy hitsPerPage = true ->
     SearchParameters.hitsPerPage searchParameters' = hitsPerPage) /\
    (uiState !! "hitsPerPage" = None \/ clears hitsPerPage = true ->
     SearchParameters.hitsPerPage searchParameters' =
       Item.value (Widget.defaultItem w)) /\
    forall k, k <> "hitsPerPage" ->
      searchParameters' !! k = searchParameters !! k.
Proof.
  cbv zeta. rewrite getWidgetSearchParameters_runs.
  eexists. split; [reflexivity|].
  rewrite hitsPerPage_setQueryParameter. unfold JS.or_else.
  split; [|split].
  - intros ->. reflexivity.
  - intros [Habsent|Hclears].
    + unfold SearchParameters.get. rewrite Habsent. reflexivity.
    + unfold clears in Hclears. apply andb_true_iff in Hclears as [Hfalsy _].
      apply negb_true_iff in Hfalsy. rewrite Hfalsy. reflexivity.
  - intros k Hk. apply setQueryParameter_other. congruence.
Qed.

Lemma import_applies_ui_state_witness :
  (exists searchParameters',
     getWidgetSearchParameters ∅ (pageSize 12) exampleWidget =
       inr (searchParameters', exampleWidget, []) /\
     SearchParameters.hitsPerPage searchParameters' = JS.Num (JS.Int 12)) /\
  (exists searchParameters',
     getWidgetSearchParameters ∅ ∅ exampleWidget =
       inr (searchParameters', exampleWidget, []) /\
     SearchParameters.hitsPerPage searchParameters' = JS.Num (JS.Int 6)).
Proof.
  split.
  - destruct (import_applies_ui_state ∅ (pageSize 12) exampleWidget)
      as (sp & Hrun & Htruthy & _).
    exists sp. split; [exact Hrun|]. apply Htruthy. reflexivity.
  - destruct (import_applies_ui_state ∅ ∅ exampleWidget)
      as (sp & Hrun & _ & Hfallback & _).
    exists sp. split; [exact Hrun|]. apply Hfallback. left. reflexivity.
Defined.

(** C4, as stated, fails: the UI state with the field [hitsPerPage] present
    and holding the empty string does not have its value applied; the page
    size is set to the value 6 of the default item. *)
Lemma import_replaces_empty_page_size :
  connectHitsPerPage exampleParams = inr exampleWidget /\
  emptyPageSize !! "hitsPerPage" = Some (JS.Str EmptyString) /\
  getWidgetSearchParameters ∅ emptyPageSize exampleWidget =
    inr (pageSize 6, exampleWidget, []) /\
  SearchParameters.hitsPerPage (pageSize 6) <> JS.Str EmptyString.
Proof.
  split; [reflexivity|]. split; [reflexivity|]. split; [reflexivity|].
  discriminate.
Qed.

(** The page size [0] does not survive a round trip: the refine callback
    stores it, [getWidgetState] exports it, and [getWidgetSearchParameters]
    reads the exported UI state back as the value 6 of the default item. *)
Lemma import_loses_page_size_zero :
  connectHitsPerPage exampleParams = inr exampleWidget /\
  Helper.state (setHitsPerPage JS.zero emptyHelper) = pageSize 0 /\
  getWidgetState ∅ (pageSize 0) exampleWidget =
    inr (pageSize 0, exampleWidget, []) /\
  SearchParameters.get "hitsPerPage" (pageSize 0) = JS.Num (JS.Int 0) /\
  getWidgetSearchParameters ∅ (pageSize 0) exampleWidget =
    inr (pageSize 6, exampleWidget, []).
Proof. repeat split; reflexivity. Qed.

(** C9: when the field [hitsPerPage] of the UI state holds a falsy value, of
    which [0] is one, [getWidgetSearchParameters] behaves as if the field were
    absent and sets the page size to the value of the default item; the
    refine callback, called with [0], sets the page size to [0]. *)
Theorem import_treats_falsy_as_absent
    (searchParameters uiState : gmap string JS.value) (w : Widget.Closure) :
  JS.truthy (SearchParameters.get "hitsPerPage" uiState) = false ->
  JS.truthy JS.zero = false /\
  getWidgetSearchParameters searchParameters uiState w =
    getWidgetSearchParameters searchParameters (delete "hitsPerPage" uiState) w /\
  (exists searchParameters',
     getWidgetSearchParameters searchParameters uiState w =
       inr (searchParameters', w, []) /\
     SearchParameters.hitsPerPage searchParameters' =
       Item.value (Widget.defaultItem w)) /\
  forall helper,
    SearchParameters.hitsPerPage (Helper.state (setHitsPerPage JS.zero helper)) =
      JS.zero.
Proof.
  intros Hfalsy. split; [reflexivity|].
  rewrite !getWidgetSearchParameters_runs.
  assert (Habsent :
    SearchParameters.get "hitsPerPage" (delete "hitsPerPage" uiState) =
      JS.Undefined).
  { unfold SearchParameters.get. rewrite lookup_delete_eq. reflexivity. }
  unfold JS.or_else. rewrite Habsent, Hfalsy.
  split; [reflexivity|]. split.
  - eexists. split; [reflexivity|]. apply hitsPerPage_setQueryParameter.
  - intros helper. apply setHitsPerPage_state.
Qed.

Lemma import_treats_falsy_as_absent_witness :
  JS.truthy (SearchParameters.get "hitsPerPage" (pageSize 0)) = false /\
  exists searchParameters',
    getWidgetSearchParameters ∅ (pageSize 0) exampleWidget =
      inr (searchParameters', exampleWidget, []) /\
    SearchParameters.hitsPerPage searchParameters' = JS.Num (JS.Int 6).
Proof.
  split; [reflexivity|].
  exact (proj1 (proj2 (proj2
           (import_treats_falsy_as_absent ∅ (pageSize 0) exampleWidget
              eq_refl)))).
Defined.

(** ** Rendering *)

Lemma lifetime_createURLFactory (calls : list HookCall) (w : Widget.Closure) :
  is_Some (Widget.createURLFactory w) ->
  is_Some (Widget.createURLFactory (lifetime calls w)).
Proof.
  apply (lifetime_invariant
           (fun w' => is_Some (Widget.createURLFactory w'))).
  intros c w'. apply createURLFactory_step.
Qed.

(** C7: [init] calls the rendering callback once, for a first render and with
    [hasNoResults] set; every [render] that follows, whatever hooks ran in
    between, calls the rendering callback once, not for a first render, with
    [hasNoResults] telling whether the hit count of the results is [0]. *)
Theorem hooks_render_once
    (o : InitOptions.InitOptions) (w : Widget.Closure) :
  let w1 := closure_after (init o) w in
  (exists renderOptions,
     init o w = inr (tt, w1, trace_of (init o) w) /\
     List.filter is_render (trace_of (init o) w) =
       [RenderCall renderOptions true] /\
     Rendering.hasNoResults renderOptions = true) /\
  forall calls r,
    let w2 := lifetime calls w1 in
    exists renderOptions,
      render r w2 = inr (tt, w2, [RenderCall renderOptions false]) /\
      Rendering.hasNoResults renderOptions =
        JS.strict_eq (nbHits (RenderOptions.results r)) JS.zero.
Proof.
  cbv zeta. split.
  - unfold closure_after, trace_of.
    destruct (isCurrentInOptions (Widget.items w) (InitOptions.state o)) eqn:E.
    + rewrite (init_listed o w E). eexists. repeat split.
    + rewrite (init_unlisted o w E). eexists. repeat split.
  - intros calls r.
    assert (Hf : is_Some (Widget.createURLFactory
                            (lifetime calls (closure_after (init o) w)))).
    { apply lifetime_createURLFactory. rewrite closure_after_init.
      simpl. eauto. }
    destruct Hf as [f Hf]. rewrite (render_runs r _ f Hf).
    eexists. split; reflexivity.
Qed.

(** ** The default item *)

(** C10: once a widget is built, whatever hooks run on it, exactly one item of
    its working list is flagged as default, and that item is the default item
    chosen when the widget was built; the placeholder item that [init] adds
    is not flagged. *)
Theorem one_default_item_for_life
    (widgetParams : Options.HitsPerPageWidgetOptions) (w : Widget.Closure) :
  connectHitsPerPage widgetParams = inr w ->
  Item.default emptyItem = None /\
  forall calls,
    let w' := lifetime calls w in
    defaults_in (Widget.items w') = 1%nat /\
    List.filter is_default (Widget.items w') = [Widget.defaultItem w] /\
    Widget.defaultItem w' = Widget.defaultItem w.
Proof.
  intros Hbuilt. split; [reflexivity|]. intros calls. cbv zeta.
  assert (Hone : List.filter is_default (Widget.items w) =
                   [Widget.defaultItem w]).
  { unfold connectHitsPerPage in Hbuilt.
    destruct (Options.items widgetParams) as [v|items]; [discriminate|].
    destruct (List.filter is_default items) as [|d [|d' rest]] eqn:E;
      try discriminate.
    injection Hbuilt as <-. exact E. }
  assert (Hlife : List.filter is_default (Widget.items (lifetime calls w)) =
                    [Widget.defaultItem w]).
  { destruct (lifetime_items calls w) as (added & Hadded & ->).
    rewrite List.filter_app, Hone.
    replace (List.filter is_default added) with
      (@nil Item.HitsPerPageWidgetOptionsItem); [reflexivity|].
    clear -Hadded. induction Hadded as [|item rest -> _ IH]; simpl; auto. }
  split; [|split].
  - rewrite defaults_in_filter, Hlife. reflexivity.
  - exact Hlife.
  - apply lifetime_defaultItem.
Qed.

Lemma one_default_item_for_life_witness :
  connectHitsPerPage exampleParams = inr exampleWidget /\
  List.filter is_default
    (Widget.items
       (lifetime
          [CallInit (initWith (pageSize 24));
           CallRender (renderWith (pageSize 24) 0);
           CallInit (initWith ∅)]
          exampleWidget)) = [item6].
Proof.
  split; [reflexivity|].
  exact (proj1 (proj2 (proj2
           (one_default_item_for_life exampleParams exampleWidget eq_refl)
           [CallInit (initWith (pageSize 24));
            CallRender (renderWith (pageSize 24) 0);
            CallInit (initWith ∅)]))).
Defined.

(** * Further properties of the connector *)

Lemma lifetime_without_init (calls : list HookCall) (w : Widget.Closure) :
  without_init calls = true -> lifetime calls w = w.
Proof.
  unfold without_init. revert w.
  induction calls as [|c calls IH]; intros w H; [reflexivity|].
  simpl in H. apply andb_true_iff in H as [Hc Hcalls].
  rewrite lifetime_cons, closure_after_invoke.
  destruct c; try discriminate Hc; apply IH, Hcalls.
Qed.

Lemma isCurrentInOptions_placeholder
    (items : list Item.HitsPerPageWidgetOptionsItem)
    (state : gmap string JS.value) :
  isCurrentInOptions (emptyItem :: items) state =
    (numericallyZero state || isCurrentInOptions items state)%bool.
Proof. reflexivity. Qed.

Lemma existsb_isRefined (items : list Item.HitsPerPageWidgetOptionsItem)
    (state : gmap string JS.value) :
  existsb RenderingItem.isRefined (normalizeItems items state) =
    isCurrentInOptions items state.
Proof.
  unfold normalizeItems, isCurrentInOptions.
  induction items as [|item rest IH]; simpl; [reflexivity|].
  rewrite IH, number_eq_sym. reflexivity.
Qed.

(** ** The URL factory and the refine callback *)

(** X1: the URL that the factory builds for a value is the URL of the state
    it was given with the page size that the refine callback stores for that
    value, and with every other parameter as it was. *)
Theorem createURL_applies_refined_value
    (createURL : gmap string JS.value -> string)
    (helperState : gmap string JS.value)
    (helper : Helper.AlgoliaSearchHelper) (value : JS.value) :
  exists state',
    createURLFactory createURL helperState value = createURL state' /\
    SearchParameters.hitsPerPage state' =
      SearchParameters.hitsPerPage (Helper.state (setHitsPerPage value helper)) /\
    forall k, k <> "hitsPerPage" -> state' !! k = helperState !! k.
Proof.
  eexists. split; [reflexivity|]. split.
  - rewrite hitsPerPage_setQueryParameter, setHitsPerPage_state. reflexivity.
  - intros k Hk. apply setQueryParameter_other. congruence.
Qed.

Lemma refineAll_snoc (values : list JS.value) (value : JS.value)
    (helper : Helper.AlgoliaSearchHelper) :
  refineAll (values ++ [value]) helper =
    setHitsPerPage value (refineAll values helper).
Proof. unfold refineAll. rewrite fold_left_app. reflexivity. Qed.

Lemma setHitsPerPage_searches (value : JS.value)
    (helper : Helper.AlgoliaSearchHelper) :
  length (Helper.searches (setHitsPerPage value helper)) =
    S (length (Helper.searches helper)).
Proof.
  unfold setHitsPerPage. destruct (clears value); simpl;
    rewrite length_app; simpl; apply Nat.add_1_r.
Qed.

(** X12: after a sequence of calls of the refine callback the page size is the
    one that the last call alone stores, whatever the earlier calls stored,
    and one search was issued per call. *)
Theorem refine_last_call_wins
    (values : list JS.value) (value : JS.value)
    (helper : Helper.AlgoliaSearchHelper) :
  let helper' := refineAll (values ++ [value]) helper in
  SearchParameters.hitsPerPage (Helper.state helper') =
    SearchParameters.hitsPerPage (Helper.state (setHitsPerPage value helper)) /\
  length (Helper.searches helper') =
    (length (Helper.searches helper) + length (values ++ [value]))%nat.
Proof.
  cbv zeta. split.
  - rewrite refineAll_snoc, !setHitsPerPage_state. reflexivity.
  - generalize (values ++ [value]). intros l. revert helper.
    induction l as [|v l IH]; intros helper; simpl.
    + symmetry. apply Nat.add_0_r.
    + fold (refineAll l (setHitsPerPage v helper)).
      rewrite IH, setHitsPerPage_searches. simpl.
      symmetry. apply Nat.add_succ_r.
Qed.

(** ** Hooks that run without [init] *)

(** X3: [render], [dispose], [getWidgetState] and [getWidgetSearchParameters]
    assign none of the closure variables: after any sequence of calls that
    has no [init], the widget is as it was. *)
Theorem only_init_assigns (calls : list HookCall) (w : Widget.Closure) :
  without_init calls = true ->
  lifetime calls w = w /\
  forall c, is_init c = false -> closure_after (invoke c) (lifetime calls w) = w.
Proof.
  intros H. rewrite (lifetime_without_init calls w H). split; [reflexivity|].
  intros c Hc. rewrite closure_after_invoke.
  destruct c; try reflexivity. discriminate Hc.
Qed.

Lemma only_init_assigns_witness :
  without_init
    [CallRender (renderWith (pageSize 12) 3); CallDispose (pageSize 12);
     CallGetWidgetState ∅ (pageSize 12)] = true /\
  lifetime
    [CallRender (renderWith (pageSize 12) 3); CallDispose (pageSize 12);
     CallGetWidgetState ∅ (pageSize 12)]
    (closure_after (init (initWith (pageSize 24))) exampleWidget) =
    closure_after (init (initWith (pageSize 24))) exampleWidget.
Proof.
  split; [reflexivity|].
  exact (proj1 (only_init_assigns
                  [CallRender (renderWith (pageSize 12) 3);
                   CallDispose (pageSize 12);
                   CallGetWidgetState ∅ (pageSize 12)]
                  (closure_after (init (initWith (pageSize 24))) exampleWidget)
                  eq_refl)).
Defined.

(** X2: on a widget that was built and on which [init] has not run, [render]
    throws a [TypeError], since [createURLFactory] holds no function yet; up
    to the throw it has called no collaborator, the rendering callback
    included, and has assigned nothing. *)
Theorem render_before_init_throws
    (widgetParams : Options.HitsPerPageWidgetOptions) (w : Widget.Closure)
    (calls : list HookCall) (r : RenderOptions.RenderOptions) :
  connectHitsPerPage widgetParams = inr w ->
  without_init calls = true ->
  render r (lifetime calls w) =
    inl (TypeError "createURLFactory is not a function", w, []) /\
  List.filter is_render (trace_of (render r) (lifetime calls w)) = [].
Proof.
  intros Hbuilt Hcalls. rewrite (lifetime_without_init calls w Hcalls).
  assert (Hunset : Widget.createURLFactory w = None).
  { unfold connectHitsPerPage in Hbuilt.
    destruct (Options.items widgetParams) as [v|items]; [discriminate|].
    destruct (List.filter is_default items) as [|d [|d' rest]];
      try discriminate.
    injection Hbuilt as <-. reflexivity. }
  unfold trace_of. rewrite (render_before_init r w Hunset).
  split; reflexivity.
Qed.

Lemma render_before_init_throws_witness :
  connectHitsPerPage exampleParams = inr exampleWidget /\
  render (renderWith (pageSize 12) 3)
    (lifetime [CallDispose (pageSize 12)] exampleWidget) =
    inl (TypeError "createURLFactory is not a function", exampleWidget, []).
Proof.
  split; [reflexivity|].
  exact (proj1 (render_before_init_throws exampleParams exampleWidget
                  [CallDispose (pageSize 12)] (renderWith (pageSize 12) 3)
                  eq_refl eq_refl)).
Defined.

(** ** Which items are refined *)

(** X5: the normalised list has a refined item exactly when [init] finds the
    page size of the state among the items. *)
Theorem some_item_refined_iff_listed
    (items : list Item.HitsPerPageWidgetOptionsItem)
    (state : gmap string JS.value) :
  (exists out, In out (normalizeItems items state) /\
               RenderingItem.isRefined out = true) <->
  listed items state.
Proof.
  rewrite <- isCurrentInOptions_listed, <- existsb_isRefined, existsb_exists.
  reflexivity.
Qed.

Lemma refined_none (items : list Item.HitsPerPageWidgetOptionsItem)
    (state : gmap string JS.value) :
  ~ In (JS.Number (SearchParameters.hitsPerPage state))
      (map (fun item => JS.Number (Item.value item)) items) ->
  List.filter RenderingItem.isRefined (normalizeItems items state) = [].
Proof.
  unfold normalizeItems.
  induction items as [|item rest IH]; simpl; intros H; [reflexivity|].
  destruct (JS.number_eq (JS.Number (Item.value item))
              (JS.Number (SearchParameters.hitsPerPage state))) eqn:E.
  - exfalso. apply H. left. apply number_eq_eq, E.
  - apply IH. intros Hin. apply H. right. exact Hin.
Qed.

(** X8: when the values of the items are pairwise distinct as numbers, the
    normalised list has at most one refined item. *)
Theorem at_most_one_item_refined
    (items : list Item.HitsPerPageWidgetOptionsItem)
    (state : gmap string JS.value) :
  List.NoDup (map (fun item => JS.Number (Item.value item)) items) ->
  (length (List.filter RenderingItem.isRefined (normalizeItems items state))
   <= 1)%nat.
Proof.
  induction items as [|item rest IH]; intros Hdistinct.
  - apply Nat.le_0_l.
  - inversion Hdistinct as [|n ns Hfresh Hrest]; subst.
    change (normalizeItems (item :: rest) state) with
      ({| RenderingItem.label := Item.label item;
          RenderingItem.value := Item.value item;
          RenderingItem.default := Item.default item;
          RenderingItem.isRefined :=
            JS.number_eq (JS.Number (Item.value item))
              (JS.Number (SearchParameters.hitsPerPage state)) |}
       :: normalizeItems rest state).
    cbn [List.filter RenderingItem.isRefined].
    destruct (JS.number_eq (JS.Number (Item.value item))
                (JS.Number (SearchParameters.hitsPerPage state))) eqn:E.
    + apply number_eq_eq in E. rewrite E in Hfresh.
      rewrite (refined_none rest state Hfresh). apply Nat.le_refl.
    + apply IH, Hrest.
Qed.

Lemma at_most_one_item_refined_witness :
  List.NoDup (map (fun item => JS.Number (Item.value item)) [item6; item12]) /\
  (length (List.filter RenderingItem.isRefined
             (normalizeItems [item6; item12] (pageSize 12))) <= 1)%nat.
Proof.
  assert (H : List.NoDup
                (map (fun item => JS.Number (Item.value item)) [item6; item12])).
  { constructor.
    - intros [Heq|[]]. discriminate Heq.
    - constructor; [intros [] | constructor]. }
  split; [exact H|].
  exact (at_most_one_item_refined [item6; item12] (pageSize 12) H).
Defined.

(** ** More on the recovery of an unlisted page size *)

(** X4: when the state has no page size, [init] finds it among no items at
    all, whatever their values: it logs both diagnostics and puts the
    placeholder item in front of the working list. *)
Theorem init_without_page_size_recovers
    (o : InitOptions.InitOptions) (w : Widget.Closure) :
  SearchParameters.hitsPerPage (InitOptions.state o) = JS.Undefined ->
  ~ listed (Widget.items w) (InitOptions.state o) /\
  List.filter logged (trace_of (init o) w) =
    [WarningCall false HitsPerPageNotDefined;
     WarningCall false (ValueNotInItems JS.Undefined)] /\
  Widget.items (closure_after (init o) w) = emptyItem :: Widget.items w.
Proof.
  intros Hundef.
  assert (Hunlisted :
    isCurrentInOptions (Widget.items w) (InitOptions.state o) = false).
  { unfold isCurrentInOptions. rewrite Hundef.
    induction (Widget.items w) as [|item rest IH]; simpl; auto. }
  split; [|split].
  - intros H. apply isCurrentInOptions_listed in H. congruence.
  - unfold trace_of. rewrite (init_unlisted o w Hunlisted), Hundef.
    reflexivity.
  - rewrite closure_after_init. unfold recovered. rewrite Hunlisted.
    reflexivity.
Qed.

Lemma init_without_page_size_recovers_witness :
  SearchParameters.hitsPerPage (InitOptions.state (initWith ∅)) =
    JS.Undefined /\
  Widget.items (closure_after (init (initWith ∅)) exampleWidget) =
    [emptyItem; item6; item12].
Proof.
  split; [reflexivity|].
  exact (proj2 (proj2 (init_without_page_size_recovers (initWith ∅)
                         exampleWidget eq_refl))).
Defined.

Lemma closure_after_init_items (o : InitOptions.InitOptions)
    (w : Widget.Closure) :
  Widget.items (closure_after (init o) w) =
    if isCurrentInOptions (Widget.items w) (InitOptions.state o)
    then Widget.items w
    else emptyItem :: Widget.items w.
Proof.
  rewrite closure_after_init. unfold recovered.
  destruct (isCurrentInOptions _ _); reflexivity.
Qed.

Lemma lifetime_repeat_init_listed (o : InitOptions.InitOptions) (n : nat)
    (w : Widget.Closure) :
  isCurrentInOptions (Widget.items w) (InitOptions.state o) = true ->
  Widget.items (lifetime (repeat (CallInit o) n) w) = Widget.items w.
Proof.
  revert w. induction n as [|n IH]; intros w H; [reflexivity|].
  cbn [repeat]. rewrite lifetime_cons.
  assert (Hsame : Widget.items (closure_after (invoke (CallInit o)) w) =
                    Widget.items w).
  { simpl. rewrite closure_after_init_items, H. reflexivity. }
  rewrite IH; rewrite Hsame; auto.
Qed.

(** X6: the placeholder item matches the page sizes that are numerically [0]
    and no others.  So when [init] runs again and again for a state whose
    page size is not listed, every run puts one more placeholder item in
    front of the working list, unless the page size is numerically [0]: then
    the first run adds the placeholder and the later runs add nothing. *)
Theorem repeated_init_piles_up_placeholders
    (o : InitOptions.InitOptions) (n : nat) (w : Widget.Closure) :
  ~ listed (Widget.items w) (InitOptions.state o) ->
  Widget.items (lifetime (repeat (CallInit o) n) w) =
    if numericallyZero (InitOptions.state o)
    then match n with
         | O => Widget.items w
         | S _ => emptyItem :: Widget.items w
         end
    else repeat emptyItem n ++ Widget.items w.
Proof.
  intros H. apply not_listed_false in H.
  destruct (numericallyZero (InitOptions.state o)) eqn:Ez.
  - destruct n as [|n]; [reflexivity|].
    cbn [repeat]. rewrite lifetime_cons.
    assert (Hgrown : Widget.items (closure_after (invoke (CallInit o)) w) =
                       emptyItem :: Widget.items w).
    { simpl. rewrite closure_after_init_items, H. reflexivity. }
    rewrite lifetime_repeat_init_listed; rewrite Hgrown; auto.
    rewrite isCurrentInOptions_placeholder, Ez. reflexivity.
  - revert w H. induction n as [|n IH]; intros w H; [reflexivity|].
    cbn [repeat]. rewrite lifetime_cons.
    assert (Hgrown : Widget.items (closure_after (invoke (CallInit o)) w) =
                       emptyItem :: Widget.items w).
    { simpl. rewrite closure_after_init_items, H. reflexivity. }
    rewrite IH.
    + rewrite Hgrown.
      change (emptyItem :: repeat emptyItem n ++ Widget.items w) with
        ((emptyItem :: repeat emptyItem n) ++ Widget.items w).
      rewrite (repeat_cons n emptyItem), <- app_assoc. reflexivity.
    + rewrite Hgrown, isCurrentInOptions_placeholder, Ez, H. reflexivity.
Qed.

Lemma repeated_init_piles_up_placeholders_witness :
  ~ listed (Widget.items exampleWidget)
      (InitOptions.state (initWith (pageSize 24))) /\
  Widget.items
    (lifetime (repeat (CallInit (initWith (pageSize 24))) 2) exampleWidget) =
    [emptyItem; emptyItem; item6; item12] /\
  ~ listed (Widget.items exampleWidget)
      (InitOptions.state (initWith (pageSize 0))) /\
  Widget.items
    (lifetime (repeat (CallInit (initWith (pageSize 0))) 2) exampleWidget) =
    [emptyItem; item6; item12].
Proof.
  assert (H24 : ~ listed (Widget.items exampleWidget)
                    (InitOptions.state (initWith (pageSize 24))))
    by (intros H; apply isCurrentInOptions_listed in H; vm_compute in H;
        discriminate H).
  assert (H0 : ~ listed (Widget.items exampleWidget)
                   (InitOptions.state (initWith (pageSize 0))))
    by (intros H; apply isCurrentInOptions_listed in H; vm_compute in H;
        discriminate H).
  split; [exact H24|]. split.
  - exact (repeated_init_piles_up_placeholders
             (initWith (pageSize 24)) 2 exampleWidget H24).
  - split; [exact H0|].
    exact (repeated_init_piles_up_placeholders
             (initWith (pageSize 0)) 2 exampleWidget H0).
Defined.

(** X7: when [init] recovers from an unlisted page size, the list it
    normalises for the rendering callback has a refined item only if the
    page size is numerically [0]; for any other unlisted page size, no item
    of that list is refined, the placeholder included. *)
Theorem recovered_items_refined_only_for_zero
    (o : InitOptions.InitOptions) (w : Widget.Closure) :
  ~ listed (Widget.items w) (InitOptions.state o) ->
  let normalized :=
    normalizeItems (emptyItem :: Widget.items w) (InitOptions.state o) in
  (exists renderOptions,
     List.filter is_render (trace_of (init o) w) =
       [RenderCall renderOptions true] /\
     Rendering.items renderOptions = Widget.transformItems w normalized) /\
  existsb RenderingItem.isRefined normalized =
    numericallyZero (InitOptions.state o) /\
  (numericallyZero (InitOptions.state o) = false ->
   List.filter RenderingItem.isRefined normalized = []).
Proof.
  intros H. apply not_listed_false in H. cbv zeta.
  assert (Hex :
    existsb RenderingItem.isRefined
      (normalizeItems (emptyItem :: Widget.items w) (InitOptions.state o)) =
      numericallyZero (InitOptions.state o)).
  { rewrite existsb_isRefined, isCurrentInOptions_placeholder, H.
    apply orb_false_r. }
  split; [|split].
  - unfold trace_of. rewrite (init_unlisted o w H).
    eexists. split; reflexivity.
  - exact Hex.
  - intros Hz. rewrite Hz in Hex.
    induction (normalizeItems (emptyItem :: Widget.items w)
                 (InitOptions.state o)) as [|out rest IH];
      [reflexivity|].
    simpl in Hex. apply orb_false_iff in Hex as [Hout Hrest].
    simpl. rewrite Hout. apply IH, Hrest.
Qed.

Lemma recovered_items_refined_only_for_zero_witness :
  ~ listed (Widget.items exampleWidget)
      (InitOptions.state (initWith (pageSize 24))) /\
  List.filter RenderingItem.isRefined
    (normalizeItems (emptyItem :: Widget.items exampleWidget)
       (InitOptions.state (initWith (pageSize 24)))) = [].
Proof.
  assert (H24 : ~ listed (Widget.items exampleWidget)
                    (InitOptions.state (initWith (pageSize 24))))
    by (intros H; apply isCurrentInOptions_listed in H; vm_compute in H;
        discriminate H).
  split; [exact H24|].
  exact (proj2 (proj2 (recovered_items_refined_only_for_zero
                         (initWith (pageSize 24)) exampleWidget H24))
           eq_refl).
Defined.

(** ** Export and import together *)

Lemma getWidgetState_runs
    (uiState searchParameters : gmap string JS.value) (w : Widget.Closure) :
  getWidgetState uiState searchParameters w =
    inr (if (JS.strict_eq (SearchParameters.hitsPerPage searchParameters)
               JS.Undefined
             || JS.strict_eq (SearchParameters.hitsPerPage searchParameters)
                  (Item.value (Widget.defaultItem w)))%bool
         then uiState
         else <["hitsPerPage" :=
                  SearchParameters.hitsPerPage searchParameters]> uiState,
         w, []).
Proof.
  unfold getWidgetState, bind, read, ret. cbn.
  destruct (_ || _)%bool; reflexivity.
Qed.

Lemma truthy_defined (v : JS.value) :
  JS.truthy v = true -> JS.strict_eq v JS.Undefined = false.
Proof. destruct v; simpl; congruence. Qed.

(** X9: a truthy page size survives export followed by import: when the UI
    state has no [hitsPerPage] field of its own, importing what
    [getWidgetState] exported for some search parameters sets the page size
    to the page size of those parameters, whether or not it is the value of
    the default item. *)
Theorem export_then_import_restores_page_size
    (uiState searchParameters target : gmap string JS.value)
    (w : Widget.Closure) :
  uiState !! "hitsPerPage" = None ->
  JS.truthy (SearchParameters.hitsPerPage searchParameters) = true ->
  exists uiState' target',
    getWidgetState uiState searchParameters w = inr (uiState', w, []) /\
    getWidgetSearchParameters target uiState' w = inr (target', w, []) /\
    SearchParameters.hitsPerPage target' =
      SearchParameters.hitsPerPage searchParameters.
Proof.
  intros Hfresh Htruthy.
  rewrite getWidgetState_runs. eexists. eexists.
  split; [reflexivity|].
  rewrite getWidgetSearchParameters_runs. split; [reflexivity|].
  rewrite hitsPerPage_setQueryParameter, (truthy_defined _ Htruthy). simpl.
  destruct (JS.strict_eq (SearchParameters.hitsPerPage searchParameters)
              (Item.value (Widget.defaultItem w))) eqn:Ed.
  - unfold JS.or_else, SearchParameters.get. rewrite Hfresh. simpl.
    symmetry. apply strict_eq_eq, Ed.
  - unfold JS.or_else, SearchParameters.get. rewrite lookup_insert_eq.
    rewrite Htruthy. reflexivity.
Qed.

Lemma export_then_import_restores_page_size_witness :
  (∅ : gmap string JS.value) !! "hitsPerPage" = None /\
  JS.truthy (SearchParameters.hitsPerPage (pageSize 12)) = true /\
  exists uiState' target',
    getWidgetState ∅ (pageSize 12) exampleWidget =
      inr (uiState', exampleWidget, []) /\
    getWidgetSearchParameters (pageSize 6) uiState' exampleWidget =
      inr (target', exampleWidget, []) /\
    SearchParameters.hitsPerPage target' =
      SearchParameters.hitsPerPage (pageSize 12).
Proof.
  split; [reflexivity|]. split; [reflexivity|].
  exact (export_then_import_restores_page_size ∅ (pageSize 12) (pageSize 6)
           exampleWidget eq_refl eq_refl).
Defined.

(** X10: a UI state is stable under import followed by export: exporting the
    search parameters that [getWidgetSearchParameters] built from a UI state
    gives that UI state back, field for field.  This is for a page size of
    the UI state and a value of the default item that are no strings, which
    the search parameters keep as they are, and for a value of the default
    item that is not [NaN]. *)
Theorem import_then_export_is_stable
    (uiState searchParameters : gmap string JS.value) (w : Widget.Closure) :
  isString (SearchParameters.get "hitsPerPage" uiState) = false ->
  isString (Item.value (Widget.defaultItem w)) = false ->
  Item.value (Widget.defaultItem w) <> JS.Num JS.NaN ->
  exists searchParameters',
    getWidgetSearchParameters searchParameters uiState w =
      inr (searchParameters', w, []) /\
    isString (SearchParameters.hitsPerPage searchParameters') = false /\
    getWidgetState uiState searchParameters' w = inr (uiState, w, []).
Proof.
  intros Hui Hdefault Hnan. rewrite getWidgetSearchParameters_runs.
  eexists. split; [reflexivity|].
  rewrite getWidgetState_runs, hitsPerPage_setQueryParameter.
  unfold JS.or_else.
  destruct (JS.truthy (SearchParameters.get "hitsPerPage" uiState)) eqn:Et.
  - split; [exact Hui|]. rewrite (truthy_defined _ Et). simpl.
    destruct (JS.strict_eq _ _); [reflexivity|].
    rewrite insert_id; [reflexivity|].
    unfold SearchParameters.get in *.
    destruct (uiState !! "hitsPerPage"); [reflexivity|discriminate Et].
  - split; [exact Hdefault|].
    rewrite (strict_eq_refl _ Hnan), orb_true_r. reflexivity.
Qed.

Lemma import_then_export_is_stable_witness :
  isString (SearchParameters.get "hitsPerPage" (pageSize 12)) = false /\
  isString (Item.value (Widget.defaultItem exampleWidget)) = false /\
  Item.value (Widget.defaultItem exampleWidget) <> JS.Num JS.NaN /\
  exists searchParameters',
    getWidgetSearchParameters ∅ (pageSize 12) exampleWidget =
      inr (searchParameters', exampleWidget, []) /\
    isString (SearchParameters.hitsPerPage searchParameters') = false /\
    getWidgetState (pageSize 12) searchParameters' exampleWidget =
      inr (pageSize 12, exampleWidget, []).
Proof.
  assert (H : Item.value (Widget.defaultItem exampleWidget) <> JS.Num JS.NaN)
    by discriminate.
  split; [reflexivity|]. split; [reflexivity|]. split; [exact H|].
  exact (import_then_export_is_stable (pageSize 12) ∅ exampleWidget
           eq_refl eq_refl H).
Defined.

(** ** What [render] hands to the rendering callback *)

Lemma connectHitsPerPage_closure
    (widgetParams : Options.HitsPerPageWidgetOptions) (w : Widget.Closure) :
  connectHitsPerPage widgetParams = inr w ->
  Widget.widgetParams w = widgetParams /\
  Widget.transformItems w =
    match Options.transformItems widgetParams with
    | Some f => f
    | None => fun items => items
    end.
Proof.
  unfold connectHitsPerPage. intros H.
  destruct (Options.items widgetParams) as [v|items]; [discriminate|].
  destruct (List.filter is_default items) as [|d [|d' rest]];
    try discriminate.
  injection H as <-. split; reflexivity.
Qed.

(** The closure variables that no hook assigns, and the refine callback once
    [init] has assigned it. *)
Lemma lifetime_after_init (o : InitOptions.InitOptions)
    (calls : list HookCall) (w : Widget.Closure) :
  let w' := lifetime calls (closure_after (init o) w) in
  Widget.widgetParams w' = Widget.widgetParams w /\
  Widget.transformItems w' = Widget.transformItems w /\
  Widget.setHitsPerPage w' = Some setHitsPerPage.
Proof.
  cbv zeta.
  apply (lifetime_invariant
           (fun w' =>
              Widget.widgetParams w' = Widget.widgetParams w /\
              Widget.transformItems w' = Widget.transformItems w /\
              Widget.setHitsPerPage w' = Some setHitsPerPage)).
  - intros c w' H. rewrite closure_after_invoke.
    destruct c; try exact H.
    unfold initialized, recovered.
    destruct (isCurrentInOptions _ _); simpl; tauto.
  - rewrite closure_after_init. unfold initialized, recovered.
    destruct (isCurrentInOptions _ _); simpl; auto.
Qed.

(** X13: every [render] that follows [init] hands the rendering callback the
    refine callback that [init] installed, the widget parameters the widget
    was built from, the search instance of that [render], and as items the
    normalised working list passed through [transformItems], which is the
    identity when the parameters give none. *)
Theorem render_forwards_configuration
    (widgetParams : Options.HitsPerPageWidgetOptions) (w : Widget.Closure)
    (o : InitOptions.InitOptions) (calls : list HookCall)
    (r : RenderOptions.RenderOptions) :
  connectHitsPerPage widgetParams = inr w ->
  let w' := lifetime calls (closure_after (init o) w) in
  exists renderOptions,
    render r w' = inr (tt, w', [RenderCall renderOptions false]) /\
    Rendering.refine renderOptions = Some setHitsPerPage /\
    Rendering.widgetParams renderOptions = widgetParams /\
    Rendering.instantSearchInstance renderOptions =
      RenderOptions.instantSearchInstance r /\
    Rendering.items renderOptions =
      match Options.transformItems widgetParams with
      | Some f => f (normalizeItems (Widget.items w') (RenderOptions.state r))
      | None => normalizeItems (Widget.items w') (RenderOptions.state r)
      end.
Proof.
  intros Hbuilt. cbv zeta.
  destruct (connectHitsPerPage_closure widgetParams w Hbuilt) as [Hwp Htf].
  destruct (lifetime_after_init o calls w) as (Hwp' & Htf' & Hrefine).
  assert (Hf : is_Some (Widget.createURLFactory
                          (lifetime calls (closure_after (init o) w)))).
  { apply lifetime_createURLFactory. rewrite closure_after_init.
    simpl. eauto. }
  destruct Hf as [f Hf]. rewrite (render_runs r _ f Hf).
  eexists. split; [reflexivity|]. simpl.
  rewrite Hrefine, Hwp', Hwp, Htf', Htf.
  repeat split. destruct (Options.transformItems widgetParams); reflexivity.
Qed.

Lemma render_forwards_configuration_witness :
  connectHitsPerPage exampleParams = inr exampleWidget /\
  exists renderOptions,
    render (renderWith (pageSize 12) 3)
      (lifetime [CallDispose ∅]
         (closure_after (init (initWith (pageSize 24))) exampleWidget)) =
      inr (tt,
           lifetime [CallDispose ∅]
             (closure_after (init (initWith (pageSize 24))) exampleWidget),
           [RenderCall renderOptions false]) /\
    Rendering.widgetParams renderOptions = exampleParams.
Proof.
  split; [reflexivity|].
  destruct (render_forwards_configuration exampleParams exampleWidget
              (initWith (pageSize 24)) [CallDispose ∅]
              (renderWith (pageSize 12) 3) eq_refl)
    as (opts & Hrun & _ & Hwp & _).
  exists opts. split; [exact Hrun | exact Hwp].
Defined.

(** X14: [init] builds its URLs from the state of the helper, [render] from
    the state it is called with; in both, the URL for a value is the one that
    the [createURL] of the last [init] gives for that state with the page size
    replaced. *)
Theorem urls_come_from_last_init
    (o : InitOptions.InitOptions) (calls : list HookCall)
    (r : RenderOptions.RenderOptions) (w : Widget.Closure) :
  without_init calls = true ->
  let w' := lifetime calls (closure_after (init o) w) in
  (exists renderOptions t,
     trace_of (init o) w = t ++ [RenderCall renderOptions true] /\
     forall value,
       Rendering.createURL renderOptions value =
         InitOptions.createURL o
           (SearchParameters.setQueryParameter "hitsPerPage"
              (if clears value then JS.Undefined else value)
              (Helper.state (InitOptions.helper o)))) /\
  (exists renderOptions,
     render r w' = inr (tt, w', [RenderCall renderOptions false]) /\
     forall value,
       Rendering.createURL renderOptions value =
         InitOptions.createURL o
           (SearchParameters.setQueryParameter "hitsPerPage"
              (if clears value then JS.Undefined else value)
              (RenderOptions.state r))).
Proof.
  intros Hcalls. cbv zeta. split.
  - unfold trace_of.
    destruct (isCurrentInOptions (Widget.items w) (InitOptions.state o)) eqn:E.
    + rewrite (init_listed o w E). exists (firstRendering o w), [].
      split; reflexivity.
    + rewrite (init_unlisted o w E). eexists _, [_; _].
      split; reflexivity.
  - rewrite (lifetime_without_init calls _ Hcalls).
    assert (Hf : Widget.createURLFactory (closure_after (init o) w) =
                   Some (createURLFactory (InitOptions.createURL o))).
    { rewrite closure_after_init. reflexivity. }
    rewrite (render_runs r _ _ Hf). eexists. split; reflexivity.
Qed.

Lemma urls_come_from_last_init_witness :
  without_init [CallGetWidgetState ∅ (pageSize 12)] = true /\
  exists renderOptions,
    render (renderWith (pageSize 12) 3)
      (lifetime [CallGetWidgetState ∅ (pageSize 12)]
         (closure_after (init (initWith (pageSize 12))) exampleWidget)) =
      inr (tt,
           lifetime [CallGetWidgetState ∅ (pageSize 12)]
             (closure_after (init (initWith (pageSize 12))) exampleWidget),
           [RenderCall renderOptions false]) /\
    Rendering.createURL renderOptions (JS.Num (JS.Int 6)) = "#".
Proof.
  split; [reflexivity|].
  destruct (proj2 (urls_come_from_last_init (initWith (pageSize 12))
                     [CallGetWidgetState ∅ (pageSize 12)]
                     (renderWith (pageSize 12) 3) exampleWidget eq_refl))
    as (opts & Hrun & Hurl).
  exists opts. split; [exact Hrun|]. rewrite Hurl. reflexivity.
Defined.

(** X15: a falsy page size does not survive export followed by import: when
    the UI state has no [hitsPerPage] field of its own, importing what
    [getWidgetState] exported for search parameters whose page size is
    undefined, [0] or another falsy value sets the page size to the value of
    the default item. *)
Theorem export_then_import_defaults_falsy_page_size
    (uiState searchParameters target : gmap string JS.value)
    (w : Widget.Closure) :
  uiState !! "hitsPerPage" = None ->
  JS.truthy (SearchParameters.hitsPerPage searchParameters) = false ->
  exists uiState' target',
    getWidgetState uiState searchParameters w = inr (uiState', w, []) /\
    getWidgetSearchParameters target uiState' w = inr (target', w, []) /\
    SearchParameters.hitsPerPage target' = Item.value (Widget.defaultItem w).
Proof.
  intros Hfresh Hfalsy.
  rewrite getWidgetState_runs. eexists. eexists.
  split; [reflexivity|].
  rewrite getWidgetSearchParameters_runs. split; [reflexivity|].
  rewrite hitsPerPage_setQueryParameter. unfold JS.or_else.
  destruct (_ || _)%bool.
  - unfold SearchParameters.get. rewrite Hfresh. reflexivity.
  - unfold SearchParameters.get. rewrite lookup_insert_eq, Hfalsy.
    reflexivity.
Qed.

Lemma export_then_import_defaults_falsy_page_size_witness :
  (∅ : gmap string JS.value) !! "hitsPerPage" = None /\
  JS.truthy (SearchParameters.hitsPerPage (pageSize 0)) = false /\
  exists uiState' target',
    getWidgetState ∅ (pageSize 0) exampleWidget =
      inr (uiState', exampleWidget, []) /\
    getWidgetSearchParameters ∅ uiState' exampleWidget =
      inr (target', exampleWidget, []) /\
    SearchParameters.hitsPerPage target' = JS.Num (JS.Int 6).
Proof.
  split; [reflexivity|]. split; [reflexivity|].
  exact (export_then_import_defaults_falsy_page_size ∅ (pageSize 0) ∅
           exampleWidget eq_refl eq_refl).
Defined.
